(** * Remote config service of the performance SDK

    A shallow embedding of
    [packages/performance/src/services/remote_config_service.ts]:
    the deterministic traffic split ([getHashPercent], [isDestTransport]),
    the application of a fetched template to the settings singleton
    ([processConfig]), the local-storage cache ([getStoredConfig],
    [storeConfig], [configValid]) and the promise chain of [getConfig]. *)

From Stdlib Require Import ZArith QArith Lia List Ascii String.
From stdpp Require Import base option list gmap.

Local Open Scope Z_scope.

(** ** JavaScript values *)

(** A JavaScript string is a sequence of UTF-16 code units;
    [charCodeAt] returns the unit at an index. *)
Definition jsstring : Type := list N.

Definition code_unit (c : N) : Prop := (c < 65536)%N.

Definition well_formed (s : jsstring) : Prop := Forall code_unit s.

(** Literals of the source, which are all ASCII. *)
Definition js (s : string) : jsstring :=
  List.map N_of_ascii (list_ascii_of_string s).

(** Truthiness of a string: every string but the empty one. *)
Definition truthy (s : jsstring) : bool :=
  match s with [] => false | _ :: _ => true end.

(** Truthiness of an optional string field ([undefined] is falsy). *)
Definition truthy_opt (s : option jsstring) : bool :=
  match s with None => false | Some v => truthy v end.

(** *** Integer-valued numbers

    A JavaScript number is a binary64 float.  The hash below only ever
    holds integers, which are modelled as [Z]; every arithmetic result is
    rounded to the nearest integer that has a 53-bit significand (ties to
    even), as the hardware does.  Overflow to an infinity, at [2^1024], is
    out of reach of the hash
    ([getHashPercent_loop_finite]). *)
Definition roundDouble (z : Z) : Z :=
  let a := Z.abs z in
  if a <? 2 ^ 53 then z
  else
    let e := Z.log2 a - 52 in
    let q := a / 2 ^ e in
    let r := a mod 2 ^ e in
    let half := 2 ^ (e - 1) in
    let q' :=
      if r <? half then q
      else if half <? r then q + 1
      else if Z.even q then q else q + 1 in
    Z.sgn z * (q' * 2 ^ e).

(** [ToInt32] of the language specification, on an integer value. *)
Definition ToInt32 (z : Z) : Z := (z + 2 ^ 31) mod 2 ^ 32 - 2 ^ 31.

(** [a << n]: both operands go through [ToInt32]/[ToUint32], the count is
    masked to five bits and the result is again a 32-bit signed integer. *)
Definition shiftLeft (a n : Z) : Z :=
  ToInt32 (Z.shiftl (ToInt32 a) (Z.land n 31)).

(** [a + b], [a - b] and [a * b] on integer-valued numbers. *)
Definition num_add (a b : Z) : Z := roundDouble (a + b).
Definition num_sub (a b : Z) : Z := roundDouble (a - b).
Definition num_mul (a b : Z) : Z := roundDouble (a * b).

(** ** The deterministic traffic split *)

(** Body of the [for] loop of [getHashPercent], from the current index on:
    [hash = (hash << 3) + hash - seed.charCodeAt(i)]. *)
Fixpoint getHashPercent_loop (hash : Z) (seed : jsstring) : Z :=
  match seed with
  | [] => hash
  | c :: rest =>
      getHashPercent_loop
        (num_sub (num_add (shiftLeft hash 3) hash) (Z.of_N c)) rest
  end.

(** [hash = Math.abs(hash % 100)]; [%] takes the sign of the dividend. *)
Definition getHashPercent (seed : jsstring) : Z :=
  let hash := getHashPercent_loop 0 seed in
  Z.abs (Z.rem hash 100).

(** The reference computation of the specification: [hash * 9 - charCode]
    in 32-bit signed wrapping arithmetic, truncated at every step. *)
Definition hashPercent_ref32_step (hash : Z) (c : N) : Z :=
  ToInt32 (ToInt32 (hash * 9) - Z.of_N c).

Definition hashPercent_ref32_loop (hash : Z) (seed : jsstring) : Z :=
  fold_left hashPercent_ref32_step seed hash.

Definition hashPercent_ref32 (seed : jsstring) : Z :=
  Z.abs (Z.rem (hashPercent_ref32_loop 0 seed) 100).

(** What the loop computes when no sum is rounded: the shift alone is
    truncated to 32 bits, the addition and the subtraction are not. *)
Definition hashPercent_shift32_step (hash : Z) (c : N) : Z :=
  ToInt32 (hash * 8) + hash - Z.of_N c.

Definition hashPercent_shift32_loop (hash : Z) (seed : jsstring) : Z :=
  fold_left hashPercent_shift32_step seed hash.

Definition hashPercent_shift32 (seed : jsstring) : Z :=
  Z.abs (Z.rem (hashPercent_shift32_loop 0 seed) 100).

(** The seed read as a numeral in base 9, most significant unit first. *)
Definition base9_value_from (acc : Z) (seed : jsstring) : Z :=
  fold_left (fun a c => 9 * a + Z.of_N c) seed acc.

Definition base9_value (seed : jsstring) : Z := base9_value_from 0 seed.

(** *** Numbers in general

    Rollout percentages, sampling rates and timestamps are arbitrary
    numbers: [NaN], the two infinities, or a finite value.  Finite doubles
    are rationals, and the comparisons of the language on them are the
    comparisons of their values; [NaN] compares false with everything. *)
Inductive number : Type :=
  | NaN
  | NegInf
  | Fin (q : Q)
  | PosInf.

Definition ofZ (z : Z) : number := Fin (inject_Z z).

Definition Q_ltb (x y : Q) : bool :=
  Qnum x * Z.pos (Qden y) <? Qnum y * Z.pos (Qden x).

(** [a < b] *)
Definition num_lt (a b : number) : bool :=
  match a, b with
  | NaN, _ | _, NaN => false
  | PosInf, _ | _, NegInf => false
  | NegInf, _ | _, PosInf => true
  | Fin x, Fin y => Q_ltb x y
  end.

(** [a > b] *)
Definition num_gt (a b : number) : bool := num_lt b a.

(** [a <= b] *)
Definition num_le (a b : number) : bool :=
  match a, b with
  | NaN, _ | _, NaN => false
  | _, _ => negb (num_lt b a)
  end.

(** [a >= b] *)
Definition num_ge (a b : number) : bool := num_le b a.

(** True if event should be sent to transport endpoint rather than log
    endpoint. *)
Definition isDestTransport (iid : jsstring) (rolloutPercent : number) : bool :=
  if bool_decide (length iid = 0%nat) then false
  else num_lt (ofZ (getHashPercent iid)) rolloutPercent.

(** ** Data model *)

(** [interface RemoteConfigTemplate]: every field is an optional string. *)
Record RemoteConfigTemplate : Type := {
  fpr_enabled : option jsstring;
  fpr_log_source : option jsstring;
  fpr_log_endpoint_url : option jsstring;
  fpr_log_transport_key : option jsstring;
  fpr_log_transport_web_percent : option jsstring;
  fpr_vc_network_request_sampling_rate : option jsstring;
  fpr_vc_trace_sampling_rate : option jsstring;
  fpr_vc_session_sampling_rate : option jsstring
}.

(** The object literal [{}]. *)
Definition empty_template : RemoteConfigTemplate :=
  {| fpr_enabled := None; fpr_log_source := None;
     fpr_log_endpoint_url := None; fpr_log_transport_key := None;
     fpr_log_transport_web_percent := None;
     fpr_vc_network_request_sampling_rate := None;
     fpr_vc_trace_sampling_rate := None;
     fpr_vc_session_sampling_rate := None |}.

(** [interface RemoteConfigResponse] *)
Record RemoteConfigResponse : Type := {
  entries : option RemoteConfigTemplate;
  state : option jsstring
}.

(** [interface SecondaryConfig] *)
Module SecondaryConfig.
Record t : Type := {
  loggingEnabled : option bool;
  logSource : option number;
  logEndPointUrl : option jsstring;
  transportKey : option jsstring;
  shouldSendToTransport : option bool;
  tracesSamplingRate : option number;
  networkRequestsSamplingRate : option number
}.
End SecondaryConfig.

(** These values will be used if the remote config object is successfully
    retrieved, but the template does not have these fields. *)
Definition SECONDARY_CONFIGS : SecondaryConfig.t :=
  {| SecondaryConfig.loggingEnabled := Some true;
     SecondaryConfig.logSource := None;
     SecondaryConfig.logEndPointUrl := None;
     SecondaryConfig.transportKey := None;
     SecondaryConfig.shouldSendToTransport := Some true;
     SecondaryConfig.tracesSamplingRate := None;
     SecondaryConfig.networkRequestsSamplingRate := None |}.

(** These values will be used if the remote config object is successfully
    retrieved, but the config object state shows unspecified or no
    template. *)
Definition NO_TEMPLATE_CONFIGS : SecondaryConfig.t :=
  {| SecondaryConfig.loggingEnabled := None;
     SecondaryConfig.logSource := None;
     SecondaryConfig.logEndPointUrl := None;
     SecondaryConfig.transportKey := None;
     SecondaryConfig.shouldSendToTransport := Some false;
     SecondaryConfig.tracesSamplingRate := None;
     SecondaryConfig.networkRequestsSamplingRate := None |}.

(** Truthiness of an optional number: [undefined], [0] and [NaN] are
    falsy. *)
Definition truthy_num (n : option number) : bool :=
  match n with
  | None | Some NaN => false
  | Some (Fin q) => negb (Qnum q =? 0)
  | Some _ => true
  end.

(** What a promise settles to, and equally what a synchronous call ends
    in: a value, or a thrown error. *)
Inductive Error : Type :=
  | RC_NOT_OK
  | QuotaExceededError
  | SyntaxError
  | TypeError
  | ExternalError (message : jsstring).

Inductive Outcome (A : Type) : Type :=
  | Fulfilled (a : A)
  | Rejected (e : Error).
Arguments Fulfilled {A} a.
Arguments Rejected {A} e.

(** Modelled from the spec: the settings store ([SettingsService], whose
    class is not part of this file) with the mutable fields this file
    assigns, the configuration time-to-live in hours, and the accessors
    for project id, API key and app id, which may throw. *)
Record SettingsService : Type := {
  loggingEnabled : bool;
  logSource : number;
  logEndPointUrl : jsstring;
  transportKey : jsstring;
  shouldSendToTransport : bool;
  tracesSamplingRate : number;
  networkRequestsSamplingRate : number;
  logTraceAfterSampling : bool;
  logNetworkAfterSampling : bool;
  configTimeToLive : Z;
  getProjectId : Outcome jsstring;
  getApiKey : Outcome jsstring;
  getAppId : Outcome jsstring
}.

Definition set_loggingEnabled (v : bool) (s : SettingsService) :=
  {| loggingEnabled := v; logSource := logSource s;
     logEndPointUrl := logEndPointUrl s; transportKey := transportKey s;
     shouldSendToTransport := shouldSendToTransport s;
     tracesSamplingRate := tracesSamplingRate s;
     networkRequestsSamplingRate := networkRequestsSamplingRate s;
     logTraceAfterSampling := logTraceAfterSampling s;
     logNetworkAfterSampling := logNetworkAfterSampling s;
     configTimeToLive := configTimeToLive s;
     getProjectId := getProjectId s; getApiKey := getApiKey s;
     getAppId := getAppId s |}.

Definition set_logSource (v : number) (s : SettingsService) :=
  {| loggingEnabled := loggingEnabled s; logSource := v;
     logEndPointUrl := logEndPointUrl s; transportKey := transportKey s;
     shouldSendToTransport := shouldSendToTransport s;
     tracesSamplingRate := tracesSamplingRate s;
     networkRequestsSamplingRate := networkRequestsSamplingRate s;
     logTraceAfterSampling := logTraceAfterSampling s;
     logNetworkAfterSampling := logNetworkAfterSampling s;
     configTimeToLive := configTimeToLive s;
     getProjectId := getProjectId s; getApiKey := getApiKey s;
     getAppId := getAppId s |}.

Definition set_logEndPointUrl (v : jsstring) (s : SettingsService) :=
  {| loggingEnabled := loggingEnabled s; logSource := logSource s;
     logEndPointUrl := v; transportKey := transportKey s;
     shouldSendToTransport := shouldSendToTransport s;
     tracesSamplingRate := tracesSamplingRate s;
     networkRequestsSamplingRate := networkRequestsSamplingRate s;
     logTraceAfterSampling := logTraceAfterSampling s;
     logNetworkAfterSampling := logNetworkAfterSampling s;
     configTimeToLive := configTimeToLive s;
     getProjectId := getProjectId s; getApiKey := getApiKey s;
     getAppId := getAppId s |}.

Definition set_transportKey (v : jsstring) (s : SettingsService) :=
  {| loggingEnabled := loggingEnabled s; logSource := logSource s;
     logEndPointUrl := logEndPointUrl s; transportKey := v;
     shouldSendToTransport := shouldSendToTransport s;
     tracesSamplingRate := tracesSamplingRate s;
     networkRequestsSamplingRate := networkRequestsSamplingRate s;
     logTraceAfterSampling := logTraceAfterSampling s;
     logNetworkAfterSampling := logNetworkAfterSampling s;
     configTimeToLive := configTimeToLive s;
     getProjectId := getProjectId s; getApiKey := getApiKey s;
     getAppId := getAppId s |}.

Definition set_shouldSendToTransport (v : bool) (s : SettingsService) :=
  {| loggingEnabled := loggingEnabled s; logSource := logSource s;
     logEndPointUrl := logEndPointUrl s; transportKey := transportKey s;
     shouldSendToTransport := v;
     tracesSamplingRate := tracesSamplingRate s;
     networkRequestsSamplingRate := networkRequestsSamplingRate s;
     logTraceAfterSampling := logTraceAfterSampling s;
     logNetworkAfterSampling := logNetworkAfterSampling s;
     configTimeToLive := configTimeToLive s;
     getProjectId := getProjectId s; getApiKey := getApiKey s;
     getAppId := getAppId s |}.

Definition set_tracesSamplingRate (v : number) (s : SettingsService) :=
  {| loggingEnabled := loggingEnabled s; logSource := logSource s;
     logEndPointUrl := logEndPointUrl s; transportKey := transportKey s;
     shouldSendToTransport := shouldSendToTransport s;
     tracesSamplingRate := v;
     networkRequestsSamplingRate := networkRequestsSamplingRate s;
     logTraceAfterSampling := logTraceAfterSampling s;
     logNetworkAfterSampling := logNetworkAfterSampling s;
     configTimeToLive := configTimeToLive s;
     getProjectId := getProjectId s; getApiKey := getApiKey s;
     getAppId := getAppId s |}.

Definition set_networkRequestsSamplingRate (v : number) (s : SettingsService) :=
  {| loggingEnabled := loggingEnabled s; logSource := logSource s;
     logEndPointUrl := logEndPointUrl s; transportKey := transportKey s;
     shouldSendToTransport := shouldSendToTransport s;
     tracesSamplingRate := tracesSamplingRate s;
     networkRequestsSamplingRate := v;
     logTraceAfterSampling := logTraceAfterSampling s;
     logNetworkAfterSampling := logNetworkAfterSampling s;
     configTimeToLive := configTimeToLive s;
     getProjectId := getProjectId s; getApiKey := getApiKey s;
     getAppId := getAppId s |}.

Definition set_logTraceAfterSampling (v : bool) (s : SettingsService) :=
  {| loggingEnabled := loggingEnabled s; logSource := logSource s;
     logEndPointUrl := logEndPointUrl s; transportKey := transportKey s;
     shouldSendToTransport := shouldSendToTransport s;
     tracesSamplingRate := tracesSamplingRate s;
     networkRequestsSamplingRate := networkRequestsSamplingRate s;
     logTraceAfterSampling := v;
     logNetworkAfterSampling := logNetworkAfterSampling s;
     configTimeToLive := configTimeToLive s;
     getProjectId := getProjectId s; getApiKey := getApiKey s;
     getAppId := getAppId s |}.

Definition set_logNetworkAfterSampling (v : bool) (s : SettingsService) :=
  {| loggingEnabled := loggingEnabled s; logSource := logSource s;
     logEndPointUrl := logEndPointUrl s; transportKey := transportKey s;
     shouldSendToTransport := shouldSendToTransport s;
     tracesSamplingRate := tracesSamplingRate s;
     networkRequestsSamplingRate := networkRequestsSamplingRate s;
     logTraceAfterSampling := logTraceAfterSampling s;
     logNetworkAfterSampling := v;
     configTimeToLive := configTimeToLive s;
     getProjectId := getProjectId s; getApiKey := getApiKey s;
     getAppId := getAppId s |}.

(** Modelled from the spec: the storage collaborator
    ([Api.getInstance().localStorage]), a string-to-string map whose
    [setItem] throws when the platform refuses the write (quota). *)
Record Storage : Type := {
  items : gmap jsstring jsstring;
  accepts : jsstring -> jsstring -> bool
}.

Definition getItem (ls : Storage) (key : jsstring) : option jsstring :=
  items ls !! key.

Definition setItem (ls : Storage) (key value : jsstring) : Outcome Storage :=
  if accepts ls key value
  then Fulfilled {| items := <[key := value]> (items ls);
                    accepts := accepts ls |}
  else Rejected QuotaExceededError.

(** The HTTP collaborator. *)
Record Request : Type := {
  url : jsstring;
  method : jsstring;
  authorization : jsstring;
  app_instance_id : jsstring;
  app_instance_id_token : jsstring;
  app_id : jsstring;
  app_version : jsstring;
  sdk_version : jsstring
}.

Record Response : Type := {
  ok : bool;
  json : Outcome RemoteConfigResponse
}.

(** What the outside answers during one resolution: the auth token
    promise, the fetch promise, and the time the round trip takes. *)
Record Network : Type := {
  authToken : Outcome jsstring;
  fetchResult : Request -> Outcome Response;
  latency : Z
}.

(** Everything the module reads or writes. *)
Record World : Type := {
  settings : SettingsService;
  localStorage : option Storage;
  now : Z;
  random : nat -> number;
  draws : nat;
  network : Network;
  console : list jsstring
}.

Definition set_settings (s : SettingsService) (w : World) : World :=
  {| settings := s; localStorage := localStorage w; now := now w;
     random := random w; draws := draws w; network := network w;
     console := console w |}.

Definition set_localStorage (ls : option Storage) (w : World) : World :=
  {| settings := settings w; localStorage := ls; now := now w;
     random := random w; draws := draws w; network := network w;
     console := console w |}.

Definition set_now (t : Z) (w : World) : World :=
  {| settings := settings w; localStorage := localStorage w; now := t;
     random := random w; draws := draws w; network := network w;
     console := console w |}.

Definition set_draws (n : nat) (w : World) : World :=
  {| settings := settings w; localStorage := localStorage w; now := now w;
     random := random w; draws := n; network := network w;
     console := console w |}.

Definition set_console (l : list jsstring) (w : World) : World :=
  {| settings := settings w; localStorage := localStorage w; now := now w;
     random := random w; draws := draws w; network := network w;
     console := l |}.

(** ** Computations

    A call, or a promise, is a function of the world that ends in an
    [Outcome] and a new world.  [then] with one callback is [bind]. *)
Definition M (A : Type) : Type := World -> Outcome A * World.

Definition ret {A} (a : A) : M A := fun w => (Fulfilled a, w).

Definition throw {A} (e : Error) : M A := fun w => (Rejected e, w).

Definition bind {A B} (m : M A) (f : A -> M B) : M B :=
  fun w =>
    match m w with
    | (Fulfilled a, w') => f a w'
    | (Rejected e, w') => (Rejected e, w')
    end.

(** [p.then(onFulfilled, onRejected)]: [onRejected] sees a rejection of
    [p] only, not an error of [onFulfilled]. *)
Definition then2 {A B} (p : M A) (onFulfilled : A -> M B)
    (onRejected : Error -> M B) : M B :=
  fun w =>
    match p w with
    | (Fulfilled a, w') => onFulfilled a w'
    | (Rejected e, w') => onRejected e w'
    end.

(** [p.catch(onRejected)], and [try { p } catch { onRejected }]. *)
Definition catch {A} (p : M A) (onRejected : Error -> M A) : M A :=
  then2 p ret onRejected.

#[global] Instance M_ret : MRet M := @ret.
#[global] Instance M_bind : MBind M := fun A B f m => bind m f.

Definition lift {A} (o : Outcome A) : M A := fun w => (o, w).

Definition modify_settings (f : SettingsService -> SettingsService) : M unit :=
  fun w => (Fulfilled tt, set_settings (f (settings w)) w).

Definition get_settings : M SettingsService :=
  fun w => (Fulfilled (settings w), w).

(** [Api.getInstance().localStorage] *)
Definition Api_localStorage : M (option Storage) :=
  fun w => (Fulfilled (localStorage w), w).

(** [localStorage.setItem(key, value)] on the shared storage object. *)
Definition localStorage_setItem (key value : jsstring) : M unit :=
  fun w =>
    match localStorage w with
    | None => (Rejected TypeError, w)
    | Some ls =>
        match setItem ls key value with
        | Fulfilled ls' => (Fulfilled tt, set_localStorage (Some ls') w)
        | Rejected e => (Rejected e, w)
        end
    end.

(** [Date.now()] *)
Definition Date_now : M Z := fun w => (Fulfilled (now w), w).

(** [Math.random()] *)
Definition Math_random : M number :=
  fun w => (Fulfilled (random w (draws w)), set_draws (S (draws w)) w).

(** [consoleLogger.info(msg)] *)
Definition consoleLogger_info (msg : jsstring) : M unit :=
  fun w => (Fulfilled tt, set_console (console w ++ [msg]) w).

(** [getAuthTokenPromise()] *)
Definition getAuthTokenPromise : M jsstring :=
  fun w => (authToken (network w), w).

(** [fetch(request)]; time passes while the request is in flight. *)
Definition fetch (request : Request) : M Response :=
  fun w => (fetchResult (network w) request,
            set_now (num_add (now w) (latency (network w))) w).

(** ** The platform

    Built-in functions of the language and constants imported from
    [../constants], none of which is defined in this file. *)
Class Platform : Type := {
  (** [Number(s)] on a string *)
  ToNumber : jsstring -> number;
  (** [String(n)] on a number *)
  ToString : number -> jsstring;
  JSON_stringify : RemoteConfigResponse -> jsstring;
  (** [JSON.parse(s)], which throws on malformed text *)
  JSON_parse : jsstring -> Outcome RemoteConfigResponse;
  CONFIG_LOCAL_STORAGE_KEY : jsstring;
  CONFIG_EXPIRY_LOCAL_STORAGE_KEY : jsstring;
  SDK_VERSION : jsstring
}.

Definition REMOTE_CONFIG_SDK_VERSION : jsstring := js "0.0.1".

Definition FIS_AUTH_PREFIX : jsstring := js "FIREBASE_INSTALLATIONS_AUTH".

Definition COULD_NOT_GET_CONFIG_MSG : jsstring :=
  js "Could not fetch config, will use default configs".

Section Service.
Context {platform : Platform}.

Definition configValid (expiry : jsstring) : M bool :=
  t ← Date_now;
  mret (num_gt (ToNumber expiry) (ofZ t)).

Definition shouldLogAfterSampling (samplingRate : number) : M bool :=
  r ← Math_random;
  mret (num_le r samplingRate).

Definition getStoredConfig : M (option RemoteConfigResponse) :=
  localStorage ← Api_localStorage;
  match localStorage with
  | None => mret None
  | Some localStorage =>
      let expiryString := getItem localStorage CONFIG_EXPIRY_LOCAL_STORAGE_KEY in
      match expiryString with
      | None => mret None
      | Some expiryString =>
          if negb (truthy expiryString) then mret None
          else
            valid ← configValid expiryString;
            if negb valid then mret None
            else
              let configStringified :=
                getItem localStorage CONFIG_LOCAL_STORAGE_KEY in
              match configStringified with
              | None => mret None
              | Some configStringified =>
                  if negb (truthy configStringified) then mret None
                  else
                    catch
                      (configResponse ← lift (JSON_parse configStringified);
                       mret (Some configResponse))
                      (fun _ => mret None)
              end
      end
  end.

Definition storeConfig (config : option RemoteConfigResponse) : M unit :=
  localStorage ← Api_localStorage;
  match config, localStorage with
  | Some config, Some _ =>
      localStorage_setItem CONFIG_LOCAL_STORAGE_KEY (JSON_stringify config) ;;
      t ← Date_now;
      s ← get_settings;
      localStorage_setItem CONFIG_EXPIRY_LOCAL_STORAGE_KEY
        (ToString
           (ofZ (num_add t
                   (num_mul (num_mul (num_mul (configTimeToLive s) 60) 60)
                      1000))))
  | _, _ => mret tt
  end.

(** Processes config coming either from calling RC or from local storage. *)
Definition processConfig (iid : jsstring)
    (config : option RemoteConfigResponse) : M (option RemoteConfigResponse) :=
  match config with
  | None => mret config
  | Some c =>
      let entries := default empty_template (entries c) in
      let state := state c in
      match fpr_enabled entries with
      | Some v => modify_settings (set_loggingEnabled (bool_decide (v = js "true")))
      | None =>
          match SecondaryConfig.loggingEnabled SECONDARY_CONFIGS with
          | Some d => modify_settings (set_loggingEnabled d)
          | None => mret tt
          end
      end ;;
      (if truthy_opt (fpr_log_source entries)
       then modify_settings
              (set_logSource (ToNumber (default [] (fpr_log_source entries))))
       else if truthy_num (SecondaryConfig.logSource SECONDARY_CONFIGS)
       then modify_settings
              (set_logSource
                 (default NaN (SecondaryConfig.logSource SECONDARY_CONFIGS)))
       else mret tt) ;;
      (if truthy_opt (fpr_log_endpoint_url entries)
       then modify_settings
              (set_logEndPointUrl (default [] (fpr_log_endpoint_url entries)))
       else if truthy_opt (SecondaryConfig.logEndPointUrl SECONDARY_CONFIGS)
       then modify_settings
              (set_logEndPointUrl
                 (default [] (SecondaryConfig.logEndPointUrl SECONDARY_CONFIGS)))
       else mret tt) ;;
      (if truthy_opt (fpr_log_transport_key entries)
       then modify_settings
              (set_transportKey (default [] (fpr_log_transport_key entries)))
       else if truthy_opt (SecondaryConfig.transportKey SECONDARY_CONFIGS)
       then modify_settings
              (set_transportKey
                 (default [] (SecondaryConfig.transportKey SECONDARY_CONFIGS)))
       else mret tt) ;;
      (if bool_decide (state = None)
          || bool_decide (state = Some (js "INSTANCE_STATE_UNSPECIFIED"))
          || bool_decide (state = Some (js "NO_TEMPLATE"))
       then
         match SecondaryConfig.shouldSendToTransport NO_TEMPLATE_CONFIGS with
         | Some d => modify_settings (set_shouldSendToTransport d)
         | None => mret tt
         end
       else
         match fpr_log_transport_web_percent entries with
         | Some v =>
             modify_settings
               (set_shouldSendToTransport (isDestTransport iid (ToNumber v)))
         | None =>
             match SecondaryConfig.shouldSendToTransport SECONDARY_CONFIGS with
             | Some d => modify_settings (set_shouldSendToTransport d)
             | None => mret tt
             end
         end) ;;
      match fpr_vc_network_request_sampling_rate entries with
      | Some v => modify_settings (set_networkRequestsSamplingRate (ToNumber v))
      | None =>
          match SecondaryConfig.networkRequestsSamplingRate SECONDARY_CONFIGS with
          | Some d => modify_settings (set_networkRequestsSamplingRate d)
          | None => mret tt
          end
      end ;;
      match fpr_vc_trace_sampling_rate entries with
      | Some v => modify_settings (set_tracesSamplingRate (ToNumber v))
      | None =>
          match SecondaryConfig.tracesSamplingRate SECONDARY_CONFIGS with
          | Some d => modify_settings (set_tracesSamplingRate d)
          | None => mret tt
          end
      end ;;
      s ← get_settings;
      b ← shouldLogAfterSampling (tracesSamplingRate s);
      modify_settings (set_logTraceAfterSampling b) ;;
      s ← get_settings;
      b ← shouldLogAfterSampling (networkRequestsSamplingRate s);
      modify_settings (set_logNetworkAfterSampling b) ;;
      mret config
  end.

Definition getRemoteConfig (iid : jsstring) : M (option RemoteConfigResponse) :=
  catch
    (authToken ← getAuthTokenPromise;
     s ← get_settings;
     projectId ← lift (getProjectId s);
     apiKey ← lift (getApiKey s);
     let configEndPoint :=
       js "https://firebaseremoteconfig.googleapis.com/v1/projects/"
         ++ projectId ++ js "/namespaces/fireperf:fetch?key=" ++ apiKey in
     appId ← lift (getAppId s);
     let request :=
       {| url := configEndPoint;
          method := js "POST";
          authorization := FIS_AUTH_PREFIX ++ js " " ++ authToken;
          app_instance_id := iid;
          app_instance_id_token := authToken;
          app_id := appId;
          app_version := SDK_VERSION;
          sdk_version := REMOTE_CONFIG_SDK_VERSION |} in
     response ← fetch request;
     if ok response
     then (c ← lift (json response); mret (Some c))
     else throw RC_NOT_OK)
    (fun _ =>
       consoleLogger_info COULD_NOT_GET_CONFIG_MSG ;;
       mret None).

Definition getConfig (iid : jsstring) : M unit :=
  config ← getStoredConfig;
  match config with
  | Some _ =>
      processConfig iid config ;;
      mret tt
  | None =>
      then2
        (config ← getRemoteConfig iid; processConfig iid config)
        (fun config => storeConfig config)
        (fun _ => mret tt)
  end.

End Service.

(** ** The rules of the specification *)

(** Precedence of a settings field: an explicit value, else the secondary
    default, else what the settings hold. *)
Definition precedence {A : Type} (explicit secondary : option A) (current : A) : A :=
  match explicit, secondary with
  | Some v, _ => v
  | None, Some d => d
  | None, None => current
  end.

(** An optional string that counts only when it is not empty. *)
Definition non_empty (v : option jsstring) : option jsstring :=
  match v with
  | Some (_ :: _) => v
  | _ => None
  end.

(** The states that stand for "no template". *)
Definition no_template_state (state : option jsstring) : Prop :=
  state = None
  \/ state = Some (js "INSTANCE_STATE_UNSPECIFIED")
  \/ state = Some (js "NO_TEMPLATE").

(** The three-way rule of transport routing. *)
Definition transport_rule {platform : Platform} (iid : jsstring)
    (c : RemoteConfigResponse) : bool :=
  if bool_decide (no_template_state (state c)) then false
  else
    match fpr_log_transport_web_percent (default empty_template (entries c)) with
    | Some v => isDestTransport iid (ToNumber v)
    | None => true
    end.

(** The settings after a response has been applied, field by field;
    [r1] and [r2] are the two random draws. *)
Definition applied_settings {platform : Platform} (iid : jsstring)
    (c : RemoteConfigResponse) (r1 r2 : number) (s : SettingsService)
    : SettingsService :=
  let e := default empty_template (entries c) in
  let traces :=
    precedence (ToNumber <$> fpr_vc_trace_sampling_rate e)
      (SecondaryConfig.tracesSamplingRate SECONDARY_CONFIGS)
      (tracesSamplingRate s) in
  let requests :=
    precedence (ToNumber <$> fpr_vc_network_request_sampling_rate e)
      (SecondaryConfig.networkRequestsSamplingRate SECONDARY_CONFIGS)
      (networkRequestsSamplingRate s) in
  {| loggingEnabled :=
       precedence ((fun v => bool_decide (v = js "true")) <$> fpr_enabled e)
         (SecondaryConfig.loggingEnabled SECONDARY_CONFIGS)
         (loggingEnabled s);
     logSource :=
       precedence (ToNumber <$> non_empty (fpr_log_source e))
         (SecondaryConfig.logSource SECONDARY_CONFIGS) (logSource s);
     logEndPointUrl :=
       precedence (non_empty (fpr_log_endpoint_url e))
         (SecondaryConfig.logEndPointUrl SECONDARY_CONFIGS)
         (logEndPointUrl s);
     transportKey :=
       precedence (non_empty (fpr_log_transport_key e))
         (SecondaryConfig.transportKey SECONDARY_CONFIGS) (transportKey s);
     shouldSendToTransport := transport_rule iid c;
     tracesSamplingRate := traces;
     networkRequestsSamplingRate := requests;
     logTraceAfterSampling := num_le r1 traces;
     logNetworkAfterSampling := num_le r2 requests;
     configTimeToLive := configTimeToLive s;
     getProjectId := getProjectId s; getApiKey := getApiKey s;
     getAppId := getAppId s |}.

(** The settings with the two per-session sampling flags blanked. *)
Definition without_sampling (s : SettingsService) : SettingsService :=
  set_logTraceAfterSampling false (set_logNetworkAfterSampling false s).

(** Two worlds that differ at most in the clock and the console. *)
Definition same_state (w w' : World) : Prop :=
  settings w' = settings w /\ localStorage w' = localStorage w
  /\ random w' = random w /\ draws w' = draws w /\ network w' = network w.

(** The fetch promise rejects, or the response is not ok, or its body
    does not parse. *)
Definition fetch_fails (o : Outcome Response) : Prop :=
  match o with
  | Rejected _ => True
  | Fulfilled r => ok r = false \/ exists e, json r = Rejected e
  end.

(** The auth token cannot be had, or the fetch fails. *)
Definition remote_fails (w : World) : Prop :=
  (exists e, authToken (network w) = Rejected e)
  \/ (forall request, fetch_fails (fetchResult (network w) request)).

(** The storage takes every write. *)
Definition storage_writable (w : World) : Prop :=
  forall ls, localStorage w = Some ls -> forall k v, accepts ls k v = true.

(** The expiry timestamp [storeConfig] computes in a world. *)
Definition stored_expiry (w : World) : Z :=
  num_add (now w)
    (num_mul (num_mul (num_mul (configTimeToLive (settings w)) 60) 60) 1000).

(** The storage takes the writes [storeConfig] makes in a resolution
    started in [w]: the serialized response under the config key and the
    expiry string under the expiry key, for the response the remote
    answers with and at the time the answer has arrived. *)
Definition accepts_store_writes {platform : Platform} (iid : jsstring)
    (w : World) : Prop :=
  forall ls c,
    localStorage w = Some ls ->
    (getRemoteConfig iid w).1 = Fulfilled (Some c) ->
    accepts ls CONFIG_LOCAL_STORAGE_KEY (JSON_stringify c) = true
    /\ accepts ls CONFIG_EXPIRY_LOCAL_STORAGE_KEY
         (ToString (ofZ (stored_expiry (getRemoteConfig iid w).2))) = true.

(** ** A sample platform

    An instance of [Platform] on which the model runs: numerals are
    decimal integers, and the JSON text is that of objects whose members
    are strings or one nested object of strings. *)
Module Sample.

Fixpoint digits_value (acc : Z) (s : jsstring) : option Z :=
  match s with
  | [] => Some acc
  | c :: rest =>
      if ((48 <=? c) && (c <=? 57))%N
      then digits_value (acc * 10 + (Z.of_N c - 48)) rest
      else None
  end.

Definition to_number (s : jsstring) : number :=
  match s with
  | [] => ofZ 0
  | 45%N :: (_ :: _) as rest =>
      match digits_value 0 rest with Some z => ofZ (- z) | None => NaN end
  | _ =>
      match digits_value 0 s with Some z => ofZ z | None => NaN end
  end.

Fixpoint digits_of (fuel : nat) (z : Z) (acc : jsstring) : jsstring :=
  match fuel with
  | O => acc
  | S fuel =>
      let acc := Z.to_N (48 + z mod 10) :: acc in
      if z <? 10 then acc else digits_of fuel (z / 10) acc
  end.

Definition to_string (n : number) : jsstring :=
  match n with
  | NaN => js "NaN"
  | PosInf => js "Infinity"
  | NegInf => js "-Infinity"
  | Fin q =>
      let z := Qnum q / Z.pos (Qden q) in
      if z <? 0
      then 45%N :: digits_of (S (Z.to_nat (Z.log2 (- z)))) (- z) []
      else digits_of (S (Z.to_nat (Z.log2 z))) z []
  end.

Definition quote (s : jsstring) : jsstring :=
  34%N :: flat_map (fun c => if ((c =? 34) || (c =? 92))%N
                             then [92%N; c] else [c]) s ++ [34%N].

Definition member (key : string) (v : option jsstring) : list jsstring :=
  match v with
  | Some v => [quote (js key) ++ 58%N :: v]
  | None => []
  end.

Fixpoint join (l : list jsstring) : jsstring :=
  match l with
  | [] => []
  | [x] => x
  | x :: rest => x ++ 44%N :: join rest
  end.

Definition object (members : list jsstring) : jsstring :=
  123%N :: join members ++ [125%N].

Definition stringify_template (e : RemoteConfigTemplate) : jsstring :=
  object
    (member "fpr_enabled" (quote <$> fpr_enabled e)
     ++ member "fpr_log_source" (quote <$> fpr_log_source e)
     ++ member "fpr_log_endpoint_url" (quote <$> fpr_log_endpoint_url e)
     ++ member "fpr_log_transport_key" (quote <$> fpr_log_transport_key e)
     ++ member "fpr_log_transport_web_percent"
          (quote <$> fpr_log_transport_web_percent e)
     ++ member "fpr_vc_network_request_sampling_rate"
          (quote <$> fpr_vc_network_request_sampling_rate e)
     ++ member "fpr_vc_trace_sampling_rate"
          (quote <$> fpr_vc_trace_sampling_rate e)
     ++ member "fpr_vc_session_sampling_rate"
          (quote <$> fpr_vc_session_sampling_rate e)).

Definition stringify (c : RemoteConfigResponse) : jsstring :=
  object
    (member "entries" (stringify_template <$> entries c)
     ++ member "state" (quote <$> state c)).

(** The text after an opening quote: the string, and what follows the
    closing quote. *)
Fixpoint parse_string (s : jsstring) : option (jsstring * jsstring) :=
  match s with
  | [] => None
  | 34%N :: rest => Some ([], rest)
  | 92%N :: c :: rest =>
      '(v, r) ← parse_string rest; Some (c :: v, r)
  | c :: rest =>
      '(v, r) ← parse_string rest; Some (c :: v, r)
  end.

(** The members of an object of strings, after its opening brace. *)
Fixpoint parse_members (fuel : nat) (s : jsstring)
    : option (list (jsstring * jsstring) * jsstring) :=
  match fuel with
  | O => None
  | S fuel =>
      match s with
      | 125%N :: rest => Some ([], rest)
      | 44%N :: rest => parse_members fuel rest
      | 34%N :: rest =>
          '(k, r) ← parse_string rest;
          match r with
          | 58%N :: 34%N :: r =>
              '(v, r) ← parse_string r;
              '(ms, r) ← parse_members fuel r;
              Some ((k, v) :: ms, r)
          | _ => None
          end
      | _ => None
      end
  end.

Definition lookup_member (key : string) (ms : list (jsstring * jsstring))
    : option jsstring :=
  snd <$> List.find (fun m => bool_decide (fst m = js key)) ms.

Definition template_of (ms : list (jsstring * jsstring)) : RemoteConfigTemplate :=
  {| fpr_enabled := lookup_member "fpr_enabled" ms;
     fpr_log_source := lookup_member "fpr_log_source" ms;
     fpr_log_endpoint_url := lookup_member "fpr_log_endpoint_url" ms;
     fpr_log_transport_key := lookup_member "fpr_log_transport_key" ms;
     fpr_log_transport_web_percent :=
       lookup_member "fpr_log_transport_web_percent" ms;
     fpr_vc_network_request_sampling_rate :=
       lookup_member "fpr_vc_network_request_sampling_rate" ms;
     fpr_vc_trace_sampling_rate :=
       lookup_member "fpr_vc_trace_sampling_rate" ms;
     fpr_vc_session_sampling_rate :=
       lookup_member "fpr_vc_session_sampling_rate" ms |}.

(** The members of a response, after its opening brace. *)
Fixpoint parse_response (fuel : nat) (s : jsstring)
    (acc : RemoteConfigResponse) : option RemoteConfigResponse :=
  match fuel with
  | O => None
  | S fuel =>
      match s with
      | [125%N] => Some acc
      | 44%N :: rest => parse_response fuel rest acc
      | 34%N :: rest =>
          '(k, r) ← parse_string rest;
          match r with
          | 58%N :: 34%N :: r =>
              '(v, r) ← parse_string r;
              parse_response fuel r
                (if bool_decide (k = js "state")
                 then {| entries := entries acc; state := Some v |}
                 else acc)
          | 58%N :: 123%N :: r =>
              '(ms, r) ← parse_members (S (length r)) r;
              parse_response fuel r
                (if bool_decide (k = js "entries")
                 then {| entries := Some (template_of ms);
                         state := state acc |}
                 else acc)
          | _ => None
          end
      | _ => None
      end
  end.

Definition parse (s : jsstring) : Outcome RemoteConfigResponse :=
  match s with
  | 123%N :: rest =>
      match parse_response (S (length rest)) rest
              {| entries := None; state := None |} with
      | Some c => Fulfilled c
      | None => Rejected SyntaxError
      end
  | _ => Rejected SyntaxError
  end.

Definition platform : Platform :=
  {| ToNumber := to_number;
     ToString := to_string;
     JSON_stringify := stringify;
     JSON_parse := parse;
     CONFIG_LOCAL_STORAGE_KEY := js "@firebase/performance/config";
     CONFIG_EXPIRY_LOCAL_STORAGE_KEY := js "@firebase/performance/configexpire";
     SDK_VERSION := js "0.0.1" |}.

(** A response in state [UPDATE] with a rollout of 50 percent. *)
Definition response : RemoteConfigResponse :=
  {| entries :=
       Some {| fpr_enabled := Some (js "true");
               fpr_log_source := Some (js "462");
               fpr_log_endpoint_url := None;
               fpr_log_transport_key := Some (js "key");
               fpr_log_transport_web_percent := Some (js "50");
               fpr_vc_network_request_sampling_rate := Some (js "1");
               fpr_vc_trace_sampling_rate := None;
               fpr_vc_session_sampling_rate := None |};
     state := Some (js "UPDATE") |}.

Definition defaults : SettingsService :=
  {| loggingEnabled := true;
     logSource := ofZ 462;
     logEndPointUrl := js "https://firebaselogging.googleapis.com/v0cc/log";
     transportKey := [];
     shouldSendToTransport := false;
     tracesSamplingRate := ofZ 1;
     networkRequestsSamplingRate := ofZ 1;
     logTraceAfterSampling := false;
     logNetworkAfterSampling := false;
     configTimeToLive := 12;
     getProjectId := Fulfilled (js "project");
     getApiKey := Fulfilled (js "key");
     getAppId := Fulfilled (js "app") |}.

(** A world with an empty storage that takes every write when [quota]
    is [true] and none when it is [false], and a network that answers
    with [answer]. *)
Definition world (quota : bool) (answer : Outcome Response) : World :=
  {| settings := defaults;
     localStorage := Some {| items := ∅; accepts := fun _ _ => quota |};
     now := 1700000000000;
     random := fun _ => Fin (1 # 2);
     draws := 0;
     network := {| authToken := Fulfilled (js "token");
                   fetchResult := fun _ => answer;
                   latency := 250 |};
     console := [] |}.

(** A storage that holds the two entries of the cache. *)
Definition cache (expiry config : jsstring) : Storage :=
  {| items :=
       <[js "@firebase/performance/configexpire" := expiry]>
         (<[js "@firebase/performance/config" := config]> ∅);
     accepts := fun _ _ => true |}.

Definition cached_world (expiry config : jsstring) : World :=
  set_localStorage (Some (cache expiry config))
    (world true (Rejected RC_NOT_OK)).

(** The network answer that carries [response]. *)
Definition answer : Outcome Response :=
  Fulfilled {| ok := true; json := Fulfilled response |}.

(** The response [{}]. *)
Definition empty_response : RemoteConfigResponse :=
  {| entries := None; state := None |}.

(** A world whose storage takes writes under the two keys of the cache
    and refuses every other key. *)
Definition selective_world (answer : Outcome Response) : World :=
  set_localStorage
    (Some {| items := ∅;
             accepts := fun k _ =>
               bool_decide (k = js "@firebase/performance/config")
               || bool_decide (k = js "@firebase/performance/configexpire") |})
    (world true answer).

End Sample.

(** ** Arithmetic of the hash *)

Lemma roundDouble_exact (z : Z) : Z.abs z < 2 ^ 53 -> roundDouble z = z.
Proof.
  intros Hz. unfold roundDouble.
  destruct (Z.ltb_spec (Z.abs z) (2 ^ 53)); [reflexivity | lia].
Qed.

Example roundDouble_ties_to_even :
  roundDouble (2 ^ 53 + 1) = 2 ^ 53
  /\ roundDouble (2 ^ 53 + 3) = 2 ^ 53 + 4
  /\ roundDouble (- (2 ^ 54 + 6)) = - (2 ^ 54 + 8)
  /\ roundDouble (2 ^ 54 + 3) = 2 ^ 54 + 4
  /\ roundDouble (2 ^ 60 - 1) = 2 ^ 60.
Proof. vm_compute. repeat split. Qed.

Lemma ToInt32_range (z : Z) : - 2 ^ 31 <= ToInt32 z < 2 ^ 31.
Proof.
  unfold ToInt32.
  pose proof (Z.mod_pos_bound (z + 2 ^ 31) (2 ^ 32)). lia.
Qed.

Lemma ToInt32_small (z : Z) : - 2 ^ 31 <= z < 2 ^ 31 -> ToInt32 z = z.
Proof.
  intros Hz. unfold ToInt32.
  rewrite Z.mod_small by lia. lia.
Qed.

(** [ToInt32] only ever moves a value by a multiple of [2^32]. *)
Lemma ToInt32_congruent (z : Z) : exists k, ToInt32 z = z + k * 2 ^ 32.
Proof.
  exists (- ((z + 2 ^ 31) / 2 ^ 32)). unfold ToInt32.
  rewrite Z.mod_eq by lia. lia.
Qed.

Lemma ToInt32_shift (z k : Z) : ToInt32 (z + k * 2 ^ 32) = ToInt32 z.
Proof.
  unfold ToInt32.
  replace (z + k * 2 ^ 32 + 2 ^ 31) with (z + 2 ^ 31 + k * 2 ^ 32) by lia.
  now rewrite Z.mod_add by lia.
Qed.

Lemma ToInt32_mul_idemp (z m : Z) : ToInt32 (ToInt32 z * m) = ToInt32 (z * m).
Proof.
  destruct (ToInt32_congruent z) as [k ->].
  replace ((z + k * 2 ^ 32) * m) with (z * m + (k * m) * 2 ^ 32) by lia.
  apply ToInt32_shift.
Qed.

Lemma shiftLeft_3 (hash : Z) : shiftLeft hash 3 = ToInt32 (hash * 8).
Proof.
  unfold shiftLeft. change (Z.land 3 31) with 3.
  rewrite Z.shiftl_mul_pow2 by lia. change (2 ^ 3) with 8.
  apply ToInt32_mul_idemp.
Qed.

(** One iteration moves the accumulator by less than [2^31 + 2^16]. *)
Lemma shift32_step_bound (hash : Z) (c : N) :
  code_unit c ->
  Z.abs (hashPercent_shift32_step hash c - hash) <= 2 ^ 31 + 65535.
Proof.
  unfold code_unit, hashPercent_shift32_step. intros Hc.
  pose proof (ToInt32_range (hash * 8)). lia.
Qed.

Lemma loop_step_exact (hash : Z) (c : N) (n : Z) :
  code_unit c ->
  Z.abs hash <= n * (2 ^ 31 + 65535) ->
  (n + 1) * (2 ^ 31 + 65535) < 2 ^ 53 ->
  num_sub (num_add (shiftLeft hash 3) hash) (Z.of_N c)
  = hashPercent_shift32_step hash c.
Proof.
  intros Hc Hh Hn.
  pose proof (shift32_step_bound hash c Hc) as Hs.
  unfold hashPercent_shift32_step in *. unfold code_unit in Hc.
  rewrite shiftLeft_3. unfold num_sub, num_add.
  pose proof (ToInt32_range (hash * 8)).
  rewrite (roundDouble_exact (ToInt32 (hash * 8) + hash)) by lia.
  apply roundDouble_exact. lia.
Qed.

(** Below [2^21] code units no sum of the loop is rounded. *)
Lemma loop_exact (seed : jsstring) :
  forall (hash n : Z),
    well_formed seed ->
    0 <= n ->
    Z.abs hash <= n * (2 ^ 31 + 65535) ->
    (n + Z.of_nat (length seed)) * (2 ^ 31 + 65535) < 2 ^ 53 ->
    getHashPercent_loop hash seed = hashPercent_shift32_loop hash seed.
Proof.
  induction seed as [|c rest IH]; intros hash n Hwf Hn Hh Hlen.
  - reflexivity.
  - apply Forall_cons in Hwf as [Hc Hrest].
    cbn [getHashPercent_loop hashPercent_shift32_loop fold_left].
    cbn [length] in Hlen.
    rewrite (loop_step_exact hash c n) by (auto; lia).
    apply (IH _ (n + 1)); auto; try lia.
    pose proof (shift32_step_bound hash c Hc). lia.
Qed.

(** The accumulator of the code and that of the 32-bit reference agree
    modulo [2^32]. *)
Lemma shift32_ref32_step (hash : Z) (c : N) :
  ToInt32 (hashPercent_shift32_step hash c)
  = hashPercent_ref32_step (ToInt32 hash) c.
Proof.
  unfold hashPercent_shift32_step, hashPercent_ref32_step.
  destruct (ToInt32_congruent (hash * 8)) as [k ->].
  destruct (ToInt32_congruent (ToInt32 hash * 9)) as [k' ->].
  destruct (ToInt32_congruent hash) as [k'' ->].
  replace (hash * 8 + k * 2 ^ 32 + hash - Z.of_N c)
    with (hash * 9 - Z.of_N c + k * 2 ^ 32) by lia.
  replace ((hash + k'' * 2 ^ 32) * 9 + k' * 2 ^ 32 - Z.of_N c)
    with (hash * 9 - Z.of_N c + (9 * k'' + k') * 2 ^ 32) by lia.
  now rewrite !ToInt32_shift.
Qed.

Lemma shift32_ref32_loop (seed : jsstring) :
  forall hash,
    ToInt32 (hashPercent_shift32_loop hash seed)
    = hashPercent_ref32_loop (ToInt32 hash) seed.
Proof.
  induction seed as [|c rest IH]; intros hash; [reflexivity|].
  cbn [hashPercent_shift32_loop hashPercent_ref32_loop fold_left].
  rewrite <- shift32_ref32_step. apply IH.
Qed.

(** While the accumulator stays small, nothing wraps at all. *)
Lemma short_loops_agree (seed : jsstring) :
  forall (hash : Z) (k : nat),
    well_formed seed ->
    (k + length seed <= 5)%nat ->
    8 * Z.abs hash + 65535 <= 65535 * 9 ^ Z.of_nat k ->
    hashPercent_shift32_loop hash seed = hashPercent_ref32_loop hash seed.
Proof.
  induction seed as [|c rest IH]; intros hash k Hwf Hk Hh; [reflexivity|].
  apply Forall_cons in Hwf as [Hc Hrest]. unfold code_unit in Hc.
  cbn [length] in Hk.
  assert (Hpow : 9 ^ Z.of_nat k <= 6561)
    by (change 6561 with (9 ^ 4); apply Z.pow_le_mono_r; lia).
  assert (Hnext : 8 * Z.abs (hash * 9 - Z.of_N c) + 65535
                  <= 65535 * 9 ^ Z.of_nat (S k)).
  { rewrite Nat2Z.inj_succ, Z.pow_succ_r by lia.
    generalize dependent (9 ^ Z.of_nat k). intros; lia. }
  assert (Hsmall : Z.abs hash <= 53738700)
    by (generalize dependent (9 ^ Z.of_nat k); intros; lia).
  clear Hh Hpow.
  assert (Hstep : hashPercent_shift32_step hash c = hash * 9 - Z.of_N c).
  { unfold hashPercent_shift32_step. rewrite ToInt32_small; lia. }
  assert (Href : hashPercent_ref32_step hash c = hash * 9 - Z.of_N c).
  { unfold hashPercent_ref32_step.
    rewrite (ToInt32_small (hash * 9)) by lia.
    apply ToInt32_small. lia. }
  cbn [hashPercent_shift32_loop hashPercent_ref32_loop fold_left].
  rewrite Hstep, Href.
  apply (IH _ (S k)); auto; lia.
Qed.

(** Rounding never carries a value of the loop past [2^90]: at that
    magnitude an increment of [2^32] is less than half a unit in the last
    place. *)
Lemma roundDouble_saturates (z : Z) :
  Z.abs z <= 2 ^ 90 + 2 ^ 32 -> Z.abs (roundDouble z) <= 2 ^ 90.
Proof.
  intros Hz. unfold roundDouble.
  destruct (Z.ltb_spec (Z.abs z) (2 ^ 53)) as [Hs | Hs]; [lia|].
  set (a := Z.abs z) in *.
  assert (Ha : 0 < a) by lia.
  pose proof (Z.log2_spec a Ha) as [Hlo Hhi].
  assert (HL : 53 <= Z.log2 a <= 90).
  { split.
    - apply Z.log2_le_pow2; lia.
    - apply Z.lt_succ_r, Z.log2_lt_pow2; lia. }
  set (L := Z.log2 a) in *.
  set (e := L - 52).
  assert (He : 2 ^ Z.succ L = 2 ^ 53 * 2 ^ e).
  { rewrite <- Z.pow_add_r by lia. f_equal. lia. }
  assert (Hpe : 0 < 2 ^ e) by (apply Z.pow_pos_nonneg; lia).
  assert (Hq : 0 <= a / 2 ^ e < 2 ^ 53).
  { split; [apply Z.div_pos; lia|].
    apply Z.div_lt_upper_bound; lia. }
  rewrite Z.abs_mul.
  replace (Z.abs (Z.sgn z)) with 1 by lia.
  rewrite Z.mul_1_l.
  destruct (Z.eq_dec L 90) as [HL90 | HL90].
  - assert (Hee : e = 38) by lia. clearbody e. subst e.
    assert (Hlo' : 2 ^ 90 <= a) by (rewrite <- HL90; exact Hlo).
    change (38 - 1) with 37.
    assert (Hq52 : a / 2 ^ 38 = 2 ^ 52).
    { symmetry. apply Z.div_unique with (r := a - 2 ^ 90); lia. }
    assert (Hr : a mod 2 ^ 38 = a - 2 ^ 90).
    { symmetry. apply Z.mod_unique with (q := 2 ^ 52); lia. }
    rewrite Hq52, Hr.
    destruct (Z.ltb_spec (a - 2 ^ 90) (2 ^ 37)); lia.
  - assert (Hle : 2 ^ Z.succ L <= 2 ^ 90) by (apply Z.pow_le_mono_r; lia).
    assert (Hq' : forall q', 0 <= q' <= 2 ^ 53 -> Z.abs (q' * 2 ^ e) <= 2 ^ 90).
    { intros q' Hq'. rewrite Z.abs_eq by nia. nia. }
    apply Hq'. repeat destruct (_ <? _); try destruct (Z.even _); lia.
Qed.

(** The accumulator therefore stays far below the overflow threshold of
    binary64, [2^1024]: no step of the loop yields an infinity. *)
Lemma getHashPercent_loop_finite (seed : jsstring) :
  forall hash,
    well_formed seed ->
    Z.abs hash <= 2 ^ 90 ->
    Z.abs (getHashPercent_loop hash seed) <= 2 ^ 90.
Proof.
  induction seed as [|c rest IH]; intros hash Hwf Hh; [exact Hh|].
  apply Forall_cons in Hwf as [Hc Hrest]. unfold code_unit in Hc.
  cbn [getHashPercent_loop]. apply IH; [exact Hrest|].
  unfold num_sub, num_add, shiftLeft.
  match goal with
  | |- context [ToInt32 ?x + hash] => pose proof (ToInt32_range x) as Hs
  end.
  apply roundDouble_saturates.
  match goal with
  | |- context [roundDouble ?x] =>
      pose proof (roundDouble_saturates x) as Hy
  end.
  lia.
Qed.


(** ** Order on numbers *)

Lemma Q_ltb_lt (x y : Q) : Q_ltb x y = true <-> (x < y)%Q.
Proof. unfold Q_ltb, Qlt. apply Z.ltb_lt. Qed.

Lemma num_lt_ofZ (a b : Z) : num_lt (ofZ a) (ofZ b) = true <-> a < b.
Proof.
  unfold ofZ. cbn [num_lt]. rewrite Q_ltb_lt.
  unfold Qlt, inject_Z; cbn. lia.
Qed.

Lemma num_lt_le_trans (a b c : number) :
  num_lt a b = true -> num_le b c = true -> num_lt a c = true.
Proof.
  destruct a as [| |x|], b as [| |y|], c as [| |z|]; cbn;
    try discriminate; try reflexivity.
  rewrite negb_true_iff, <- not_true_iff_false, !Q_ltb_lt.
  intros Hxy Hyz. apply Qnot_lt_le in Hyz.
  eapply Qlt_le_trans; eassumption.
Qed.

(** ** Claims about the traffic split *)

Lemma getHashPercent_bounds (seed : jsstring) : 0 <= getHashPercent seed <= 99.
Proof.
  unfold getHashPercent.
  pose proof (Z.rem_bound_abs (getHashPercent_loop 0 seed) 100).
  pose proof (Z.abs_nonneg (Z.rem (getHashPercent_loop 0 seed) 100)).
  lia.
Qed.

(** C1, at the seed ["0123456789"]: the code yields 21, the 32-bit
    reference computation 75.  The ninth iteration leaves the accumulator
    at -2330576372, below the 32-bit range, and nothing brings it back. *)
Lemma getHashPercent_differs_from_ref32 :
  getHashPercent_loop 0 (js "012345678") = -2330576372
  /\ getHashPercent (js "0123456789") = 21
  /\ hashPercent_ref32 (js "0123456789") = 75
  /\ getHashPercent (js "0123456789") <> hashPercent_ref32 (js "0123456789").
Proof. repeat split; try reflexivity. vm_compute. discriminate. Qed.

(** C1 (amended): for every seed of at most [2^21] code units,
    [getHashPercent seed] is [abs (hash rem 100)] where [hash] starts from 0
    and becomes [ToInt32 (hash * 8) + hash - charCode] for each code unit
    from left to right: only the shift is truncated to 32 bits, the sum and
    the difference are exact.  The accumulator is congruent modulo [2^32]
    to the accumulator of the 32-bit reference computation, and the two
    results are equal for every seed of at most five code units. *)
Theorem getHashPercent_truncates_shift_only (seed : jsstring) :
  well_formed seed ->
  Z.of_nat (length seed) <= 2 ^ 21 ->
  getHashPercent seed = hashPercent_shift32 seed
  /\ ToInt32 (getHashPercent_loop 0 seed) = hashPercent_ref32_loop 0 seed
  /\ ((length seed <= 5)%nat -> getHashPercent seed = hashPercent_ref32 seed).
Proof.
  intros Hwf Hlen.
  assert (Hloop : getHashPercent_loop 0 seed = hashPercent_shift32_loop 0 seed)
    by (apply (loop_exact seed 0 0); auto; lia).
  unfold getHashPercent, hashPercent_shift32, hashPercent_ref32.
  rewrite Hloop. split; [reflexivity|]. split.
  - apply (shift32_ref32_loop seed 0).
  - intros Hshort.
    now rewrite (short_loops_agree seed 0 0) by (auto; lia).
Qed.

Lemma getHashPercent_truncates_shift_only_witness :
  getHashPercent (js "0123456789") = hashPercent_shift32 (js "0123456789")
  /\ ToInt32 (getHashPercent_loop 0 (js "0123456789"))
     = hashPercent_ref32_loop 0 (js "0123456789").
Proof.
  assert (Hwf : well_formed (js "0123456789"))
    by (repeat constructor).
  assert (Hlen : Z.of_nat (length (js "0123456789")) <= 2 ^ 21)
    by (vm_compute; discriminate).
  destruct (getHashPercent_truncates_shift_only _ Hwf Hlen) as (H1 & H2 & _).
  exact (conj H1 H2).
Defined.

(** C3: for every seed, [getHashPercent seed] is an integer in [0, 99];
    on the empty seed the loop body never runs and the result is defined
    (it is 0); and [isDestTransport] of the empty id is [false] for every
    rollout percent. *)
Theorem getHashPercent_range_and_empty_id :
  (forall seed, 0 <= getHashPercent seed <= 99)
  /\ (forall hash, getHashPercent_loop hash [] = hash)
  /\ getHashPercent [] = 0
  /\ (forall p, isDestTransport [] p = false).
Proof.
  split; [exact getHashPercent_bounds|].
  repeat split; reflexivity.
Qed.

(** C4: [isDestTransport] is deterministic, its result is a function of
    the pair (id, percent) alone, and for a fixed id it is monotonic in the
    percent: if [p <= p'] and the id is selected at [p], it is selected at
    [p']. *)
Theorem isDestTransport_deterministic_monotonic (iid : jsstring) (p p' : number) :
  (forall b1 b2,
      isDestTransport iid p = b1 -> isDestTransport iid p = b2 -> b1 = b2)
  /\ (num_le p p' = true ->
      isDestTransport iid p = true -> isDestTransport iid p' = true).
Proof.
  split.
  - intros b1 b2 <- <-. reflexivity.
  - unfold isDestTransport. intros Hle.
    case_bool_decide; [discriminate|].
    intros Hlt. eapply num_lt_le_trans; eassumption.
Qed.

Lemma isDestTransport_deterministic_monotonic_witness :
  isDestTransport (js "abc") (ofZ 60) = true.
Proof.
  apply (proj2 (isDestTransport_deterministic_monotonic
                  (js "abc") (ofZ 50) (ofZ 60))); reflexivity.
Defined.

(** C10: [isDestTransport] does not validate the range of the rollout
    percent: for a non-empty id the result is [true] whenever the percent
    is at least 100 and [false] whenever it is at most 0, because the hash
    percent lies in [0, 99]. *)
Theorem isDestTransport_no_range_validation (iid : jsstring) (p : number) :
  iid <> [] ->
  (num_ge p (ofZ 100) = true -> isDestTransport iid p = true)
  /\ (num_le p (ofZ 0) = true -> isDestTransport iid p = false).
Proof.
  intros Hne. pose proof (getHashPercent_bounds iid) as Hb.
  unfold isDestTransport.
  case_bool_decide as Hlen; [destruct iid; [congruence | discriminate]|].
  split; intros Hp.
  - apply (num_lt_le_trans _ (ofZ 100)); [|exact Hp].
    apply num_lt_ofZ. lia.
  - apply not_true_is_false. intros Hlt.
    pose proof (num_lt_le_trans _ _ _ Hlt Hp) as H0.
    apply num_lt_ofZ in H0. lia.
Qed.

Lemma isDestTransport_no_range_validation_witness :
  isDestTransport (js "abc") (ofZ 150) = true
  /\ isDestTransport (js "abc") PosInf = true
  /\ isDestTransport (js "abc") (ofZ (-5)) = false.
Proof.
  assert (Hne : js "abc" <> []) by discriminate.
  split; [|split].
  - apply (proj1 (isDestTransport_no_range_validation _ (ofZ 150) Hne)).
    reflexivity.
  - apply (proj1 (isDestTransport_no_range_validation _ PosInf Hne)).
    reflexivity.
  - apply (proj2 (isDestTransport_no_range_validation _ (ofZ (-5)) Hne)).
    reflexivity.
Defined.

(** ** Applying a response *)

Section ProcessConfig.
Context {platform : Platform}.

(** [processConfig] on a present response never throws, returns the
    response it was given, draws twice and leaves the settings as the
    field-by-field rules say. *)
Lemma processConfig_run (iid : jsstring) (c : RemoteConfigResponse) (w : World) :
  processConfig iid (Some c) w
  = (Fulfilled (Some c),
     set_draws (S (S (draws w)))
       (set_settings
          (applied_settings iid c (random w (draws w))
             (random w (S (draws w))) (settings w))
          w)).
Proof.
  destruct w as [s ls t rnd d net con].
  destruct c as [e st].
  unfold processConfig, applied_settings, transport_rule.
  cbn [entries state settings draws random].
  destruct (default empty_template e) as [en so ur ke pc nr tr se].
  cbn [fpr_enabled fpr_log_source fpr_log_endpoint_url fpr_log_transport_key
       fpr_log_transport_web_percent fpr_vc_network_request_sampling_rate
       fpr_vc_trace_sampling_rate].
  assert (Hst : bool_decide (st = None)
                || bool_decide (st = Some (js "INSTANCE_STATE_UNSPECIFIED"))
                || bool_decide (st = Some (js "NO_TEMPLATE"))
                = bool_decide (no_template_state st)).
  { unfold no_template_state.
    repeat case_bool_decide; cbn; try reflexivity; exfalso; tauto. }
  rewrite Hst. clear Hst.
  destruct (bool_decide (no_template_state st));
    destruct en, so as [[|? ?]|], ur as [[|? ?]|], ke as [[|? ?]|], pc, nr, tr;
    reflexivity.
Qed.

End ProcessConfig.


Section ProcessConfigClaims.
Context {platform : Platform}.

(** C2: on a present response, [shouldSendToTransport] follows a three-way
    rule on [response.state]: when the state is absent,
    ["INSTANCE_STATE_UNSPECIFIED"] or ["NO_TEMPLATE"] it is set to [false],
    whether or not [fpr_log_transport_web_percent] is present; otherwise,
    when that field is present, it is set to
    [isDestTransport(iid, Number(fpr_log_transport_web_percent))];
    otherwise it is set to [true]. *)
Theorem processConfig_transport_three_way
    (iid : jsstring) (c : RemoteConfigResponse) (w : World) :
  let e := default empty_template (entries c) in
  let s' := settings (processConfig iid (Some c) w).2 in
  (no_template_state (state c) -> shouldSendToTransport s' = false)
  /\ (~ no_template_state (state c) ->
      forall v, fpr_log_transport_web_percent e = Some v ->
                shouldSendToTransport s' = isDestTransport iid (ToNumber v))
  /\ (~ no_template_state (state c) ->
      fpr_log_transport_web_percent e = None ->
      shouldSendToTransport s' = true).
Proof.
  intros e s'. subst s'. rewrite processConfig_run.
  cbn [snd settings set_draws set_settings applied_settings
       shouldSendToTransport].
  unfold transport_rule. fold e.
  repeat split.
  - intros Hst. now rewrite bool_decide_eq_true_2.
  - intros Hst v Hv. now rewrite bool_decide_eq_false_2, Hv.
  - intros Hst Hv. now rewrite bool_decide_eq_false_2, Hv.
Qed.

(** C7 (amended): on a present response each of the six mapped settings
    fields takes the explicit value of [response.entries], else the
    secondary default of the field, else keeps its value, where for
    [logSource], [logEndPointUrl] and [transportKey] an empty string counts
    as missing.  In particular a missing [fpr_enabled] sets
    [loggingEnabled] to [true], and a missing field without secondary
    default leaves the settings value unchanged. *)
Theorem processConfig_field_precedence
    (iid : jsstring) (c : RemoteConfigResponse) (w : World) :
  let e := default empty_template (entries c) in
  let s := settings w in
  let s' := settings (processConfig iid (Some c) w).2 in
  (loggingEnabled s'
   = precedence ((fun v => bool_decide (v = js "true")) <$> fpr_enabled e)
       (SecondaryConfig.loggingEnabled SECONDARY_CONFIGS) (loggingEnabled s)
   /\ logSource s'
     = precedence (ToNumber <$> non_empty (fpr_log_source e))
         (SecondaryConfig.logSource SECONDARY_CONFIGS) (logSource s)
   /\ logEndPointUrl s'
     = precedence (non_empty (fpr_log_endpoint_url e))
         (SecondaryConfig.logEndPointUrl SECONDARY_CONFIGS) (logEndPointUrl s)
   /\ transportKey s'
     = precedence (non_empty (fpr_log_transport_key e))
         (SecondaryConfig.transportKey SECONDARY_CONFIGS) (transportKey s)
   /\ networkRequestsSamplingRate s'
     = precedence (ToNumber <$> fpr_vc_network_request_sampling_rate e)
         (SecondaryConfig.networkRequestsSamplingRate SECONDARY_CONFIGS)
         (networkRequestsSamplingRate s)
   /\ tracesSamplingRate s'
     = precedence (ToNumber <$> fpr_vc_trace_sampling_rate e)
         (SecondaryConfig.tracesSamplingRate SECONDARY_CONFIGS)
         (tracesSamplingRate s))
  /\ (fpr_enabled e = None -> loggingEnabled s' = true)
  /\ (fpr_log_source e = None -> logSource s' = logSource s)
  /\ (fpr_log_endpoint_url e = None -> logEndPointUrl s' = logEndPointUrl s)
  /\ (fpr_log_transport_key e = None -> transportKey s' = transportKey s)
  /\ (fpr_vc_network_request_sampling_rate e = None ->
      networkRequestsSamplingRate s' = networkRequestsSamplingRate s)
  /\ (fpr_vc_trace_sampling_rate e = None ->
      tracesSamplingRate s' = tracesSamplingRate s).
Proof.
  intros e s s'. subst s'. rewrite processConfig_run.
  cbn [snd settings set_draws set_settings applied_settings
       loggingEnabled logSource logEndPointUrl transportKey
       networkRequestsSamplingRate tracesSamplingRate].
  fold e. fold s.
  split; [repeat split|].
  repeat split; intros ->; reflexivity.
Qed.

(** C8: on an absent response [processConfig] returns absent and changes
    nothing: the settings, and the rest of the world, are as before. *)
Theorem processConfig_absent (iid : jsstring) (w : World) :
  processConfig iid None w = (Fulfilled None, w)
  /\ settings (processConfig iid None w).2 = settings w.
Proof. split; reflexivity. Qed.

End ProcessConfigClaims.

Lemma sample_response_has_template :
  ~ no_template_state (state Sample.response).
Proof. intros [Hs | [Hs | Hs]]; discriminate Hs. Qed.

Lemma processConfig_transport_three_way_witness :
  shouldSendToTransport
    (settings (processConfig (platform := Sample.platform) (js "abc")
                 (Some Sample.response)
                 (Sample.world true (Rejected RC_NOT_OK))).2)
  = isDestTransport (js "abc") (Sample.to_number (js "50")).
Proof.
  exact (proj1 (proj2 (processConfig_transport_three_way
                         (platform := Sample.platform) (js "abc") Sample.response
                         (Sample.world true (Rejected RC_NOT_OK))))
           sample_response_has_template (js "50") eq_refl).
Defined.

Lemma processConfig_field_precedence_witness :
  tracesSamplingRate
    (settings (processConfig (platform := Sample.platform) (js "abc")
                 (Some Sample.response)
                 (Sample.world true (Rejected RC_NOT_OK))).2)
  = tracesSamplingRate (settings (Sample.world true (Rejected RC_NOT_OK))).
Proof.
  exact (proj2 (proj2 (proj2 (proj2 (proj2 (proj2
           (processConfig_field_precedence
              (platform := Sample.platform) (js "abc") Sample.response
              (Sample.world true (Rejected RC_NOT_OK))))))))
           eq_refl).
Defined.

(** ** The cache and the promise chain *)

(** Unfolds the monad and the primitive effects. *)
Ltac run :=
  cbv [mbind mret M_bind M_ret bind ret throw lift catch then2
       Api_localStorage Date_now get_settings getAuthTokenPromise fetch
       consoleLogger_info localStorage_setItem configValid].

Section Cache.
Context {platform : Platform}.

(** Reading the cache neither throws nor changes anything. *)
Lemma getStoredConfig_reads (w : World) :
  exists r, getStoredConfig w = (Fulfilled r, w).
Proof.
  unfold getStoredConfig. run.
  repeat case_match; simplify_eq; eauto.
Qed.

(** The remote fetch never rejects, and touches neither the settings nor
    the storage. *)
Lemma getRemoteConfig_resolves (iid : jsstring) (w : World) :
  exists r w', getRemoteConfig iid w = (Fulfilled r, w') /\ same_state w w'.
Proof.
  unfold getRemoteConfig, same_state. run.
  repeat case_match; simplify_eq; eexists _, _; split; try reflexivity;
    cbn; auto.
Qed.

Lemma processConfig_returns (iid : jsstring)
    (config : option RemoteConfigResponse) (w : World) :
  exists w', processConfig iid config w = (Fulfilled config, w')
             /\ localStorage w' = localStorage w /\ now w' = now w
             /\ (config = None -> w' = w).
Proof.
  destruct config as [c|].
  - rewrite processConfig_run. eexists; repeat split. discriminate.
  - exists w. repeat split.
Qed.

(** What a successful [storeConfig] leaves in the storage. *)
Lemma storeConfig_run (c : RemoteConfigResponse) (w : World) (ls : Storage) :
  localStorage w = Some ls ->
  (forall k v, accepts ls k v = true) ->
  storeConfig (Some c) w
  = (Fulfilled tt,
     set_localStorage
       (Some {| items :=
                  <[CONFIG_EXPIRY_LOCAL_STORAGE_KEY :=
                      ToString (ofZ (stored_expiry w))]>
                    (<[CONFIG_LOCAL_STORAGE_KEY := JSON_stringify c]>
                       (items ls));
                accepts := accepts ls |})
       w).
Proof.
  intros Hls Hacc. unfold storeConfig, stored_expiry. run.
  rewrite Hls. cbv beta iota. rewrite Hls. unfold setItem. rewrite Hacc.
  cbn [localStorage set_localStorage accepts items now settings].
  rewrite Hacc. reflexivity.
Qed.

Lemma storeConfig_resolves (config : option RemoteConfigResponse) (w : World) :
  storage_writable w -> (storeConfig config w).1 = Fulfilled tt.
Proof.
  intros Hw. destruct config as [c|], (localStorage w) as [ls|] eqn:Hls.
  - erewrite storeConfig_run; eauto.
  - unfold storeConfig. run. now rewrite Hls.
  - reflexivity.
  - reflexivity.
Qed.

(** [storeConfig] returns normally as soon as its own two writes are
    taken. *)
Lemma storeConfig_resolves_writes (c : RemoteConfigResponse) (w : World) :
  (forall ls,
      localStorage w = Some ls ->
      accepts ls CONFIG_LOCAL_STORAGE_KEY (JSON_stringify c) = true
      /\ accepts ls CONFIG_EXPIRY_LOCAL_STORAGE_KEY
           (ToString (ofZ (stored_expiry w))) = true) ->
  (storeConfig (Some c) w).1 = Fulfilled tt.
Proof.
  intros Hacc. unfold storeConfig, stored_expiry in *. run.
  destruct (localStorage w) as [ls|] eqn:Hls; [|reflexivity].
  destruct (Hacc ls eq_refl) as [Ha1 Ha2].
  unfold setItem. rewrite Hls, Ha1.
  cbn [localStorage set_localStorage accepts items now settings].
  now rewrite Ha2.
Qed.

Lemma getRemoteConfig_fails (iid : jsstring) (w : World) :
  remote_fails w -> (getRemoteConfig iid w).1 = Fulfilled None.
Proof.
  unfold getRemoteConfig, remote_fails, fetch_fails. run.
  intros [[e He] | Hf].
  - now rewrite He.
  - repeat case_match; simplify_eq; try reflexivity; exfalso.
    all: match goal with
         | Hr : fetchResult _ ?q = _ |- _ =>
             specialize (Hf q); rewrite Hr in Hf
         end.
    all: destruct Hf as [Hf | [e' Hf]]; congruence.
Qed.

(** A cache hit: what [getStoredConfig] returns on a complete entry. *)
Lemma getStoredConfig_hit (w : World) (ls : Storage) (e s : jsstring)
    (c : RemoteConfigResponse) :
  localStorage w = Some ls ->
  getItem ls CONFIG_EXPIRY_LOCAL_STORAGE_KEY = Some e -> e <> [] ->
  getItem ls CONFIG_LOCAL_STORAGE_KEY = Some s -> s <> [] ->
  JSON_parse s = Fulfilled c ->
  getStoredConfig w
  = (Fulfilled (if num_lt (ofZ (now w)) (ToNumber e) then Some c else None),
     w).
Proof.
  intros Hls He Hne Hs Hns Hc. unfold getStoredConfig. run.
  rewrite Hls, He, Hs.
  destruct e; [congruence|]. destruct s; [congruence|].
  cbn [truthy negb].
  unfold num_gt. destruct (num_lt _ _); cbn [negb]; [|reflexivity].
  now rewrite Hc.
Qed.

(** Below [2^53] the expiry is computed without rounding. *)
Lemma stored_expiry_exact (w : World) :
  Z.abs (now w) + Z.abs (configTimeToLive (settings w)) * 3600000 < 2 ^ 53 ->
  stored_expiry w = now w + configTimeToLive (settings w) * 3600000.
Proof.
  intros Hb. unfold stored_expiry, num_add, num_mul.
  generalize dependent (configTimeToLive (settings w)).
  generalize (now w). intros t ttl Hb.
  rewrite (roundDouble_exact (ttl * 60)) by lia.
  rewrite (roundDouble_exact (ttl * 60 * 60)) by lia.
  rewrite (roundDouble_exact (ttl * 60 * 60 * 1000)) by lia.
  rewrite roundDouble_exact by lia. lia.
Qed.

End Cache.

Section CacheClaims.
Context {platform : Platform}.

(** C5 (amended): [getConfig(iid)] resolves successfully whenever the
    storage takes the two writes [storeConfig] makes, the serialized
    response under the config key and the expiry string under the expiry
    key, and whenever there is no storage at all.  On a cache miss with a
    failing auth token or fetch it resolves whatever the storage does, and
    leaves the settings and the storage as they were. *)
Theorem getConfig_resolves (iid : jsstring) (w : World) :
  (accepts_store_writes iid w -> (getConfig iid w).1 = Fulfilled tt)
  /\ (localStorage w = None -> (getConfig iid w).1 = Fulfilled tt)
  /\ ((getStoredConfig w).1 = Fulfilled None -> remote_fails w ->
      (getConfig iid w).1 = Fulfilled tt
      /\ settings (getConfig iid w).2 = settings w
      /\ localStorage (getConfig iid w).2 = localStorage w).
Proof.
  destruct (getStoredConfig_reads w) as [stored Hstored].
  destruct (getRemoteConfig_resolves iid w)
    as (r & w1 & Hr & Hs1 & Hls1 & _).
  destruct (processConfig_returns iid r w1) as (w2 & Hp & Hls2 & _ & Hnone).
  assert (Hwrites : accepts_store_writes iid w ->
                    (getConfig iid w).1 = Fulfilled tt).
  { intros Hw. unfold getConfig. run. rewrite Hstored.
    destruct stored as [c0|]; [now rewrite processConfig_run|].
    rewrite Hr, Hp. destruct r as [c|]; [|reflexivity].
    apply storeConfig_resolves_writes. intros ls Hls.
    rewrite processConfig_run in Hp. injection Hp as <-.
    cbn [localStorage set_draws set_settings] in Hls.
    unfold accepts_store_writes in Hw. rewrite Hr in Hw. cbn [fst snd] in Hw.
    replace (stored_expiry _) with (stored_expiry w1) by reflexivity.
    apply Hw; congruence. }
  split; [exact Hwrites|]. split.
  - intros Hnone'. apply Hwrites. intros ls c Hls. congruence.
  - intros Hmiss Hfail. rewrite Hstored in Hmiss. cbn in Hmiss.
    injection Hmiss as ->.
    pose proof (getRemoteConfig_fails iid w Hfail) as Hrn.
    rewrite Hr in Hrn. cbn in Hrn. injection Hrn as ->.
    rewrite (Hnone eq_refl) in Hp.
    unfold getConfig. run. rewrite Hstored, Hr, Hp.
    repeat split; cbn; assumption.
Qed.

(** C6: [configValid] holds exactly when the current time is strictly
    less than the stored expiry timestamp, so an expiry equal to the
    current time is invalid; a complete cache entry is returned by
    [getStoredConfig] exactly under that condition; and [storeConfig]
    writes the expiry [now + configTimeToLive * 3600000]. *)
Theorem cache_expiry_rule :
  (forall expiry w,
      configValid expiry w
      = (Fulfilled (num_lt (ofZ (now w)) (ToNumber expiry)), w))
  /\ (forall expiry w,
        ToNumber expiry = ofZ (now w) ->
        (configValid expiry w).1 = Fulfilled false)
  /\ (forall w ls e s c,
        localStorage w = Some ls ->
        getItem ls CONFIG_EXPIRY_LOCAL_STORAGE_KEY = Some e -> e <> [] ->
        getItem ls CONFIG_LOCAL_STORAGE_KEY = Some s -> s <> [] ->
        JSON_parse s = Fulfilled c ->
        ((getStoredConfig w).1 = Fulfilled (Some c)
         <-> num_lt (ofZ (now w)) (ToNumber e) = true)
        /\ (ToNumber e = ofZ (now w) ->
            (getStoredConfig w).1 = Fulfilled None))
  /\ (forall c w ls,
        localStorage w = Some ls ->
        (forall k v, accepts ls k v = true) ->
        Z.abs (now w) + Z.abs (configTimeToLive (settings w)) * 3600000
        < 2 ^ 53 ->
        exists ls',
          localStorage (storeConfig (Some c) w).2 = Some ls'
          /\ getItem ls' CONFIG_EXPIRY_LOCAL_STORAGE_KEY
             = Some (ToString
                       (ofZ (now w
                             + configTimeToLive (settings w) * 3600000)))).
Proof.
  assert (Hirr : forall t, num_lt (ofZ t) (ofZ t) = false).
  { intros t. apply not_true_is_false. rewrite num_lt_ofZ. lia. }
  split; [reflexivity|]. split; [|split].
  - intros expiry w Heq. unfold configValid. run. unfold num_gt.
    rewrite Heq. cbn [fst]. now rewrite Hirr.
  - intros w ls e s c Hls He Hne Hs Hns Hc.
    rewrite (getStoredConfig_hit w ls e s c) by assumption. cbn [fst].
    split.
    + destruct (num_lt _ _); split; congruence.
    + intros ->. now rewrite Hirr.
  - intros c w ls Hls Hacc Hb.
    rewrite (storeConfig_run c w ls Hls Hacc).
    rewrite (stored_expiry_exact w Hb).
    eexists. split; [reflexivity|].
    unfold getItem. cbn [items]. apply lookup_insert_eq.
Qed.

(** C9: once [storeConfig] has stored a response, [getStoredConfig]
    before the expiry returns that very response, and applying what was
    read gives the same settings as applying the original: all fields but
    the two sampled flags agree whatever the random draws are, and the
    flags agree too under the same draws. *)
Theorem stored_config_round_trip
    (c : RemoteConfigResponse) (w : World) (ls : Storage) (t : Z) :
  localStorage w = Some ls ->
  (forall k v, accepts ls k v = true) ->
  CONFIG_LOCAL_STORAGE_KEY <> CONFIG_EXPIRY_LOCAL_STORAGE_KEY ->
  JSON_stringify c <> [] ->
  JSON_parse (JSON_stringify c) = Fulfilled c ->
  ToString (ofZ (stored_expiry w)) <> [] ->
  ToNumber (ToString (ofZ (stored_expiry w))) = ofZ (stored_expiry w) ->
  t < stored_expiry w ->
  forall w',
    localStorage w' = localStorage (storeConfig (Some c) w).2 ->
    now w' = t ->
    getStoredConfig w' = (Fulfilled (Some c), w')
    /\ forall iid readback w1 w2,
        (getStoredConfig w').1 = Fulfilled readback ->
        settings w1 = settings w2 ->
        without_sampling (settings (processConfig iid readback w1).2)
        = without_sampling (settings (processConfig iid (Some c) w2).2)
        /\ (random w1 (draws w1) = random w2 (draws w2) ->
            random w1 (S (draws w1)) = random w2 (S (draws w2)) ->
            settings (processConfig iid readback w1).2
            = settings (processConfig iid (Some c) w2).2).
Proof.
  intros Hls Hacc Hkeys Hne Hjson Hsne Hnum Ht w' Hls' Hnow.
  rewrite (storeConfig_run c w ls Hls Hacc) in Hls'. cbn in Hls'.
  assert (Hread : getStoredConfig w' = (Fulfilled (Some c), w')).
  { erewrite getStoredConfig_hit; [| exact Hls' | | exact Hsne | | exact Hne
                                    | exact Hjson].
    - rewrite Hnum, Hnow.
      now rewrite (proj2 (num_lt_ofZ t (stored_expiry w)) Ht).
    - unfold getItem. cbn [items]. apply lookup_insert_eq.
    - unfold getItem. cbn [items].
      rewrite lookup_insert_ne by congruence. apply lookup_insert_eq. }
  split; [exact Hread|].
  intros iid readback w1 w2 Hrb Hset.
  rewrite Hread in Hrb. cbn in Hrb. injection Hrb as <-.
  rewrite !processConfig_run. cbn [snd settings set_draws set_settings].
  rewrite Hset. split; [reflexivity|].
  now intros -> ->.
Qed.

End CacheClaims.

(** ** The claims on the sample platform *)

(** C7, at a response whose [fpr_log_source] and [fpr_log_endpoint_url] are
    empty strings: the explicit values do not win, the settings keep the
    log source 462 and the endpoint they had, where the precedence as the
    claim states it gives [Number("")], which is 0, and the empty URL. *)
Lemma processConfig_empty_string_is_not_explicit :
  let c :=
    {| entries :=
         Some {| fpr_enabled := None;
                 fpr_log_source := Some [];
                 fpr_log_endpoint_url := Some [];
                 fpr_log_transport_key := None;
                 fpr_log_transport_web_percent := None;
                 fpr_vc_network_request_sampling_rate := None;
                 fpr_vc_trace_sampling_rate := None;
                 fpr_vc_session_sampling_rate := None |};
       state := Some (js "UPDATE") |} in
  let e := default empty_template (entries c) in
  let w := Sample.world true (Rejected RC_NOT_OK) in
  let s' :=
    settings (processConfig (platform := Sample.platform) (js "abc") (Some c) w).2 in
  logSource s' = ofZ 462
  /\ precedence (Sample.to_number <$> fpr_log_source e)
       (SecondaryConfig.logSource SECONDARY_CONFIGS) (logSource (settings w))
     = ofZ 0
  /\ logSource s'
     <> precedence (Sample.to_number <$> fpr_log_source e)
          (SecondaryConfig.logSource SECONDARY_CONFIGS)
          (logSource (settings w))
  /\ logEndPointUrl s' = logEndPointUrl (settings w)
  /\ logEndPointUrl s'
     <> precedence (fpr_log_endpoint_url e)
          (SecondaryConfig.logEndPointUrl SECONDARY_CONFIGS)
          (logEndPointUrl (settings w)).
Proof.
  cbv zeta. split; [reflexivity|]. split; [reflexivity|].
  split; [vm_compute; discriminate|]. split; [reflexivity|].
  vm_compute; discriminate.
Qed.

(** C5, at a storage that refuses every write (its quota is used up) and
    a fetch that succeeds: the promise [getConfig] returns is rejected with
    the error [setItem] threw. *)
Lemma getConfig_rejects_when_setItem_throws :
  (getConfig (platform := Sample.platform) (js "abc")
     (Sample.world false
        (Fulfilled {| ok := true; json := Fulfilled Sample.response |}))).1
  = Rejected QuotaExceededError.
Proof. vm_compute. reflexivity. Qed.

(** The storage of [Sample.selective_world] takes the two writes of the
    cache although it does not take every write. *)
Example selective_storage_is_not_writable :
  ~ storage_writable (Sample.selective_world Sample.answer).
Proof.
  intros Hw.
  specialize (Hw _ eq_refl (js "other") []). vm_compute in Hw. discriminate.
Qed.

Lemma getConfig_resolves_witness :
  (getConfig (platform := Sample.platform) (js "abc")
     (Sample.selective_world Sample.answer)).1
  = Fulfilled tt
  /\ ((getConfig (platform := Sample.platform) (js "abc")
         (Sample.world false (Rejected RC_NOT_OK))).1
      = Fulfilled tt
      /\ settings (getConfig (platform := Sample.platform) (js "abc")
                     (Sample.world false (Rejected RC_NOT_OK))).2
         = settings (Sample.world false (Rejected RC_NOT_OK))
      /\ localStorage (getConfig (platform := Sample.platform) (js "abc")
                         (Sample.world false (Rejected RC_NOT_OK))).2
         = localStorage (Sample.world false (Rejected RC_NOT_OK))).
Proof.
  split.
  - apply (proj1 (getConfig_resolves (platform := Sample.platform) (js "abc") _)).
    intros ls c Hls _. injection Hls as <-. split; reflexivity.
  - apply (proj2 (proj2 (getConfig_resolves (platform := Sample.platform)
                           (js "abc") _))).
    + vm_compute. reflexivity.
    + right. intros request. exact I.
Defined.

Lemma cache_expiry_rule_witness :
  (configValid (platform := Sample.platform) (js "1700000000000")
     (Sample.world true (Rejected RC_NOT_OK))).1
  = Fulfilled false
  /\ exists ls',
      localStorage
        (storeConfig (platform := Sample.platform) (Some Sample.response)
           (Sample.world true (Rejected RC_NOT_OK))).2
      = Some ls'
      /\ getItem ls' (js "@firebase/performance/configexpire")
         = Some (js "1700043200000").
Proof.
  destruct (cache_expiry_rule (platform := Sample.platform)) as (_ & H2 & _ & H4).
  split.
  - apply H2. vm_compute. reflexivity.
  - apply (H4 Sample.response (Sample.world true (Rejected RC_NOT_OK)) _
              eq_refl (fun _ _ => eq_refl)).
    vm_compute. reflexivity.
Defined.

Lemma stored_config_round_trip_witness :
  let w := Sample.world true (Rejected RC_NOT_OK) in
  let w' :=
    set_now 1700043199999
      (storeConfig (platform := Sample.platform) (Some Sample.response) w).2 in
  getStoredConfig (platform := Sample.platform) w'
  = (Fulfilled (Some Sample.response), w').
Proof.
  intros w w'.
  refine (proj1 (stored_config_round_trip (platform := Sample.platform)
                   Sample.response w _ 1700043199999
                   eq_refl (fun _ _ => eq_refl) _ _ _ _ _ _
                   w' eq_refl eq_refl)).
  - vm_compute. discriminate.
  - vm_compute. discriminate.
  - vm_compute. reflexivity.
  - vm_compute. discriminate.
  - vm_compute. reflexivity.
  - vm_compute. reflexivity.
Defined.

(** ** Further properties of the cache *)

Section CacheProperties.
Context {platform : Platform}.

(** X1: [getStoredConfig] never throws and writes nothing, and it returns a
    response exactly when the storage holds a non-empty expiry string whose
    number is greater than the current time and a non-empty config string
    that [JSON.parse] accepts; the response is the parsed one. *)
Theorem getStoredConfig_hit_iff (w : World) (c : RemoteConfigResponse) :
  (exists r, getStoredConfig w = (Fulfilled r, w))
  /\ ((getStoredConfig w).1 = Fulfilled (Some c)
      <-> exists ls e s,
          localStorage w = Some ls
          /\ getItem ls CONFIG_EXPIRY_LOCAL_STORAGE_KEY = Some e /\ e <> []
          /\ num_lt (ofZ (now w)) (ToNumber e) = true
          /\ getItem ls CONFIG_LOCAL_STORAGE_KEY = Some s /\ s <> []
          /\ JSON_parse s = Fulfilled c).
Proof.
  split; [apply getStoredConfig_reads|]. split.
  - unfold getStoredConfig. run. unfold num_gt.
    destruct (localStorage w) as [ls|] eqn:Hls; [|cbn; discriminate].
    destruct (getItem ls CONFIG_EXPIRY_LOCAL_STORAGE_KEY) as [e|] eqn:He;
      [|cbn; discriminate].
    destruct e as [|e0 e]; [cbn; discriminate|]. cbn [truthy negb].
    destruct (num_lt _ _) eqn:Hlt; [|cbn; discriminate]. cbn [negb].
    destruct (getItem ls CONFIG_LOCAL_STORAGE_KEY) as [s|] eqn:Hs;
      [|cbn; discriminate].
    destruct s as [|s0 s]; [cbn; discriminate|]. cbn [truthy negb].
    destruct (JSON_parse (s0 :: s)) as [c'|err] eqn:Hp; [|cbn; discriminate].
    cbn. intros [= ->].
    exists ls, (e0 :: e), (s0 :: s).
    split; [reflexivity|]. split; [exact He|]. split; [discriminate|].
    split; [exact Hlt|]. split; [exact Hs|]. split; [discriminate|exact Hp].
  - intros (ls & e & s & Hls & He & Hne & Hlt & Hs & Hns & Hp).
    rewrite (getStoredConfig_hit w ls e s c) by assumption.
    now rewrite Hlt.
Qed.

(** X2: whatever is wrong with the cache is a miss, never an error: no
    storage, no expiry entry, an expiry that is not a number, no config
    entry, or a config string [JSON.parse] throws on. *)
Theorem getStoredConfig_miss_on_garbage (w : World) :
  (localStorage w = None -> getStoredConfig w = (Fulfilled None, w))
  /\ (forall ls,
        localStorage w = Some ls ->
        (getItem ls CONFIG_EXPIRY_LOCAL_STORAGE_KEY = None ->
         getStoredConfig w = (Fulfilled None, w))
        /\ (forall e,
              getItem ls CONFIG_EXPIRY_LOCAL_STORAGE_KEY = Some e ->
              ToNumber e = NaN ->
              getStoredConfig w = (Fulfilled None, w))
        /\ (getItem ls CONFIG_LOCAL_STORAGE_KEY = None ->
            getStoredConfig w = (Fulfilled None, w))
        /\ (forall s err,
              getItem ls CONFIG_LOCAL_STORAGE_KEY = Some s ->
              JSON_parse s = Rejected err ->
              getStoredConfig w = (Fulfilled None, w))).
Proof.
  unfold getStoredConfig. run. unfold num_gt. split.
  - now intros ->.
  - intros ls ->. repeat split.
    + now intros ->.
    + intros e -> ->. now destruct e.
    + intros ->. repeat case_match; reflexivity.
    + intros s err -> Hp. repeat case_match; simplify_eq; reflexivity.
Qed.

(** X3: [storeConfig] with an absent response, or without a storage, does
    nothing at all. *)
Theorem storeConfig_noop (config : option RemoteConfigResponse) (w : World) :
  config = None \/ localStorage w = None ->
  storeConfig config w = (Fulfilled tt, w).
Proof.
  unfold storeConfig. run.
  intros [-> | ->]; [reflexivity|]. now destruct config.
Qed.

(** X4: whether it succeeds or throws, [storeConfig] touches nothing but
    the two entries of the storage: the settings, the clock, the console
    and every other key keep their values, and a storage stays a storage. *)
Theorem storeConfig_frame (config : option RemoteConfigResponse) (w : World) :
  let w' := (storeConfig config w).2 in
  settings w' = settings w /\ now w' = now w /\ console w' = console w
  /\ draws w' = draws w /\ network w' = network w
  /\ (localStorage w = None -> localStorage w' = None)
  /\ (forall ls,
        localStorage w = Some ls ->
        exists ls',
          localStorage w' = Some ls' /\ accepts ls' = accepts ls
          /\ forall k,
              k <> CONFIG_LOCAL_STORAGE_KEY ->
              k <> CONFIG_EXPIRY_LOCAL_STORAGE_KEY ->
              getItem ls' k = getItem ls k).
Proof.
  unfold storeConfig. run. unfold setItem, getItem.
  destruct config as [c|], (localStorage w) as [ls|] eqn:Hls; cbn;
    try (repeat split; [congruence | intros ? [= <-]; eauto]; fail).
  - rewrite Hls.
    destruct (accepts ls _ _) eqn:Ha1; cbn.
    + destruct (accepts ls CONFIG_EXPIRY_LOCAL_STORAGE_KEY _) eqn:Ha2; cbn;
        (repeat split; [discriminate|]); intros ? [= <-];
        eexists; (split; [reflexivity|]); (split; [reflexivity|]);
        intros k Hk1 Hk2; cbn; now rewrite ?lookup_insert_ne by congruence.
    + rewrite Hls. repeat split; [discriminate|]. intros ? [= <-]. eauto.
Qed.

(** X5: when [storeConfig] throws, the expiry entry is the one that was
    there before, for it is written last; if the first write was refused
    nothing has changed, and if only the second was refused the new config
    is already stored under the old expiry. *)
Theorem storeConfig_rejection_keeps_expiry
    (c : RemoteConfigResponse) (w : World) (ls : Storage) (err : Error) :
  localStorage w = Some ls ->
  CONFIG_LOCAL_STORAGE_KEY <> CONFIG_EXPIRY_LOCAL_STORAGE_KEY ->
  (storeConfig (Some c) w).1 = Rejected err ->
  exists ls',
    localStorage (storeConfig (Some c) w).2 = Some ls'
    /\ getItem ls' CONFIG_EXPIRY_LOCAL_STORAGE_KEY
       = getItem ls CONFIG_EXPIRY_LOCAL_STORAGE_KEY
    /\ (accepts ls CONFIG_LOCAL_STORAGE_KEY (JSON_stringify c) = false ->
        (storeConfig (Some c) w).2 = w)
    /\ (accepts ls CONFIG_LOCAL_STORAGE_KEY (JSON_stringify c) = true ->
        getItem ls' CONFIG_LOCAL_STORAGE_KEY = Some (JSON_stringify c)).
Proof.
  intros Hls Hkeys. unfold storeConfig. run. unfold setItem, getItem.
  rewrite Hls. cbn. rewrite Hls.
  destruct (accepts ls CONFIG_LOCAL_STORAGE_KEY _) eqn:Ha1; cbn.
  - destruct (accepts ls CONFIG_EXPIRY_LOCAL_STORAGE_KEY _) eqn:Ha2; cbn;
      [discriminate|].
    intros _. eexists. split; [reflexivity|]. cbn.
    rewrite lookup_insert_ne by congruence.
    split; [reflexivity|]. split; [discriminate|].
    intros _. apply lookup_insert_eq.
  - intros _. exists ls. rewrite Hls. repeat split. discriminate.
Qed.

(** X6: a stored response is no longer served once the clock has reached
    the expiry that was written with it. *)
Theorem stored_config_expires
    (c : RemoteConfigResponse) (w : World) (ls : Storage) (t : Z) :
  localStorage w = Some ls ->
  (forall k v, accepts ls k v = true) ->
  ToNumber (ToString (ofZ (stored_expiry w))) = ofZ (stored_expiry w) ->
  stored_expiry w <= t ->
  forall w',
    localStorage w' = localStorage (storeConfig (Some c) w).2 ->
    now w' = t ->
    getStoredConfig w' = (Fulfilled None, w').
Proof.
  intros Hls Hacc Hnum Ht w' Hls' Hnow.
  rewrite (storeConfig_run c w ls Hls Hacc) in Hls'. cbn in Hls'.
  unfold getStoredConfig. run. rewrite Hls'. unfold getItem at 1.
  cbn [items]. rewrite lookup_insert_eq.
  destruct (ToString (ofZ (stored_expiry w))) as [|e0 e] eqn:He;
    [reflexivity|].
  cbn [truthy negb]. unfold num_gt. rewrite Hnum, Hnow.
  assert (Hlt : num_lt (ofZ t) (ofZ (stored_expiry w)) = false).
  { apply not_true_is_false. rewrite num_lt_ofZ. lia. }
  now rewrite Hlt.
Qed.

(** X7: a second [storeConfig] replaces what the first one wrote: storing
    [c1] and then [c2] leaves the world as storing [c2] alone does. *)
Theorem storeConfig_overwrites (c1 c2 : RemoteConfigResponse) (w : World) :
  storage_writable w ->
  CONFIG_LOCAL_STORAGE_KEY <> CONFIG_EXPIRY_LOCAL_STORAGE_KEY ->
  storeConfig (Some c2) (storeConfig (Some c1) w).2
  = storeConfig (Some c2) w.
Proof.
  intros Hw Hkeys. destruct (localStorage w) as [ls|] eqn:Hls.
  - rewrite (storeConfig_run c1 w ls Hls (Hw ls Hls)). cbn [snd].
    erewrite storeConfig_run; [| reflexivity | exact (Hw ls Hls)].
    rewrite (storeConfig_run c2 w ls Hls (Hw ls Hls)).
    destruct w as [s l t rnd d net con]. cbn in *. subst l.
    unfold stored_expiry, set_localStorage. cbn.
    do 4 f_equal.
    rewrite (insert_insert_ne _ CONFIG_LOCAL_STORAGE_KEY
               CONFIG_EXPIRY_LOCAL_STORAGE_KEY) by congruence.
    now rewrite !insert_insert_eq.
  - assert (Hnoop : storeConfig (Some c1) w = (Fulfilled tt, w))
      by (unfold storeConfig; run; now rewrite Hls).
    now rewrite Hnoop.
Qed.

End CacheProperties.

(** ** Further properties of [processConfig] *)

Lemma num_lt_le (a b : number) : num_lt a b = true -> num_le a b = true.
Proof.
  destruct a as [| |x|], b as [| |y|]; cbn; try discriminate; try reflexivity.
  rewrite negb_true_iff, <- not_true_iff_false, !Q_ltb_lt.
  intros Hxy Hyx. exact (Qlt_irrefl _ (Qlt_trans _ _ _ Hxy Hyx)).
Qed.

Lemma num_le_not_lt (a b : number) : num_le a b = true -> num_lt b a = false.
Proof.
  destruct a as [| |x|], b as [| |y|]; cbn; try discriminate; try reflexivity.
  now rewrite negb_true_iff.
Qed.

Section ProcessConfigProperties.
Context {platform : Platform}.

(** X8: applying a response a second time changes nothing but, possibly,
    the two sampled flags. *)
Theorem processConfig_idempotent
    (iid : jsstring) (c : RemoteConfigResponse) (w : World) :
  let w1 := (processConfig iid (Some c) w).2 in
  without_sampling (settings (processConfig iid (Some c) w1).2)
  = without_sampling (settings w1).
Proof.
  cbv zeta. rewrite !processConfig_run.
  cbn [snd settings set_draws set_settings].
  destruct c as [e st]. unfold applied_settings, without_sampling.
  cbn [entries state]. unfold transport_rule. cbn [entries state].
  destruct (default empty_template e) as [en so ur ke pc nr tr se].
  cbn [fpr_enabled fpr_log_source fpr_log_endpoint_url fpr_log_transport_key
       fpr_log_transport_web_percent fpr_vc_network_request_sampling_rate
       fpr_vc_trace_sampling_rate].
  destruct en, so as [[|? ?]|], ur as [[|? ?]|], ke as [[|? ?]|], nr, tr;
    reflexivity.
Qed.

(** X9: [processConfig] on a present response never throws and returns the
    response it was given; it takes exactly two random draws, and touches
    neither the storage, the clock, the console, the time-to-live nor the
    accessors of the settings. *)
Theorem processConfig_frame
    (iid : jsstring) (c : RemoteConfigResponse) (w : World) :
  let r := processConfig iid (Some c) w in
  r.1 = Fulfilled (Some c)
  /\ draws r.2 = S (S (draws w))
  /\ localStorage r.2 = localStorage w /\ now r.2 = now w
  /\ console r.2 = console w /\ network r.2 = network w
  /\ random r.2 = random w
  /\ configTimeToLive (settings r.2) = configTimeToLive (settings w)
  /\ getProjectId (settings r.2) = getProjectId (settings w)
  /\ getApiKey (settings r.2) = getApiKey (settings w)
  /\ getAppId (settings r.2) = getAppId (settings w).
Proof. cbv zeta. rewrite processConfig_run. repeat split. Qed.

(** X10: the field [fpr_vc_session_sampling_rate] of a response has no
    effect on the settings, nor on anything else. *)
Theorem processConfig_ignores_session_rate
    (iid : jsstring) (en so ur ke pc nr tr se se' st : option jsstring)
    (w : World) :
  (processConfig iid
     (Some {| entries :=
                Some {| fpr_enabled := en; fpr_log_source := so;
                        fpr_log_endpoint_url := ur;
                        fpr_log_transport_key := ke;
                        fpr_log_transport_web_percent := pc;
                        fpr_vc_network_request_sampling_rate := nr;
                        fpr_vc_trace_sampling_rate := tr;
                        fpr_vc_session_sampling_rate := se |};
              state := st |}) w).2
  = (processConfig iid
       (Some {| entries :=
                  Some {| fpr_enabled := en; fpr_log_source := so;
                          fpr_log_endpoint_url := ur;
                          fpr_log_transport_key := ke;
                          fpr_log_transport_web_percent := pc;
                          fpr_vc_network_request_sampling_rate := nr;
                          fpr_vc_trace_sampling_rate := tr;
                          fpr_vc_session_sampling_rate := se' |};
                state := st |}) w).2.
Proof. now rewrite !processConfig_run. Qed.

(** X11: the installation id matters only for a rollout: when the state
    stands for "no template", or the response has no
    [fpr_log_transport_web_percent], [processConfig] does the same for every
    id. *)
Theorem processConfig_iid_only_for_rollout
    (iid iid' : jsstring) (c : RemoteConfigResponse) (w : World) :
  no_template_state (state c)
  \/ fpr_log_transport_web_percent (default empty_template (entries c)) = None ->
  processConfig iid (Some c) w = processConfig iid' (Some c) w.
Proof.
  intros Hc. rewrite !processConfig_run. do 3 f_equal.
  unfold applied_settings. f_equal. unfold transport_rule.
  destruct Hc as [Hst | Hpc].
  - now rewrite !bool_decide_eq_true_2.
  - now rewrite Hpc.
Qed.

(** X12: with a draw in [0, 1), a sampling rate of at least 1 switches the
    session flag on and a negative rate, or one that is not a number,
    switches it off; the trace flag uses the first draw and the network
    flag the second. *)
Theorem processConfig_sampling_flags
    (iid : jsstring) (c : RemoteConfigResponse) (w : World) :
  let s' := settings (processConfig iid (Some c) w).2 in
  let r1 := random w (draws w) in
  let r2 := random w (S (draws w)) in
  logTraceAfterSampling s' = num_le r1 (tracesSamplingRate s')
  /\ logNetworkAfterSampling s' = num_le r2 (networkRequestsSamplingRate s')
  /\ (num_le (ofZ 0) r1 = true -> num_lt r1 (ofZ 1) = true ->
      (num_le (ofZ 1) (tracesSamplingRate s') = true ->
       logTraceAfterSampling s' = true)
      /\ (num_lt (tracesSamplingRate s') (ofZ 0) = true ->
          logTraceAfterSampling s' = false))
  /\ (num_le (ofZ 0) r2 = true -> num_lt r2 (ofZ 1) = true ->
      (num_le (ofZ 1) (networkRequestsSamplingRate s') = true ->
       logNetworkAfterSampling s' = true)
      /\ (num_lt (networkRequestsSamplingRate s') (ofZ 0) = true ->
          logNetworkAfterSampling s' = false))
  /\ (tracesSamplingRate s' = NaN -> logTraceAfterSampling s' = false)
  /\ (networkRequestsSamplingRate s' = NaN ->
      logNetworkAfterSampling s' = false).
Proof.
  cbv zeta. rewrite processConfig_run.
  cbn [snd settings set_draws set_settings applied_settings
       logTraceAfterSampling logNetworkAfterSampling tracesSamplingRate
       networkRequestsSamplingRate].
  assert (Hedge : forall r rate,
             num_le (ofZ 0) r = true -> num_lt r (ofZ 1) = true ->
             (num_le (ofZ 1) rate = true -> num_le r rate = true)
             /\ (num_lt rate (ofZ 0) = true -> num_le r rate = false)).
  { intros r rate H0 H1. split; intros Hr.
    - apply num_lt_le. eapply num_lt_le_trans; eassumption.
    - pose proof (num_lt_le_trans _ _ _ Hr H0) as Hlt.
      destruct r, rate; cbn in *; try discriminate; try reflexivity.
      now rewrite Hlt. }
  assert (Hnan : forall r, num_le r NaN = false) by (now intros []).
  split; [reflexivity|]. split; [reflexivity|].
  split; [apply Hedge|]. split; [apply Hedge|].
  split; intros ->; apply Hnan.
Qed.

(** X13: in a state with a template and with a rollout percent present,
    an empty installation id, or a percent that is not a number, keeps the
    events off the transport endpoint. *)
Theorem processConfig_rollout_edge
    (iid v : jsstring) (c : RemoteConfigResponse) (w : World) :
  ~ no_template_state (state c) ->
  fpr_log_transport_web_percent (default empty_template (entries c)) = Some v ->
  iid = [] \/ ToNumber v = NaN ->
  shouldSendToTransport (settings (processConfig iid (Some c) w).2) = false.
Proof.
  intros Hst Hv Hedge. rewrite processConfig_run.
  cbn [snd settings set_draws set_settings applied_settings
       shouldSendToTransport].
  unfold transport_rule. rewrite bool_decide_eq_false_2 by exact Hst.
  rewrite Hv. destruct Hedge as [-> | ->]; [reflexivity|].
  unfold isDestTransport. now case_bool_decide.
Qed.

End ProcessConfigProperties.

(** ** Further properties of the hash *)

Lemma base9_value_from_mono (seed : jsstring) :
  forall acc, 0 <= acc -> acc <= base9_value_from acc seed.
Proof.
  induction seed as [|c rest IH]; intros acc Hacc; [cbn; lia|].
  cbn [base9_value_from fold_left].
  etransitivity; [|apply IH]; lia.
Qed.

Lemma loop_base9 (seed : jsstring) :
  forall acc,
    0 <= acc ->
    base9_value_from acc seed < 2 ^ 28 ->
    getHashPercent_loop (- acc) seed = - base9_value_from acc seed.
Proof.
  induction seed as [|c rest IH]; intros acc Hacc Hb; [reflexivity|].
  cbn [getHashPercent_loop].
  change (base9_value_from acc (c :: rest))
    with (base9_value_from (9 * acc + Z.of_N c) rest) in *.
  pose proof (base9_value_from_mono rest (9 * acc + Z.of_N c) ltac:(lia))
    as Hm.
  assert (Hsmall : 9 * acc + Z.of_N c < 2 ^ 28) by lia.
  rewrite <- IH by (auto; lia). f_equal.
  rewrite shiftLeft_3, ToInt32_small by lia.
  unfold num_sub, num_add.
  rewrite (roundDouble_exact (- acc * 8 + - acc)) by lia.
  rewrite roundDouble_exact by lia. lia.
Qed.

(** X19: whatever the length of the seed, the accumulator of the loop
    stays within [2^90] in magnitude, far from the overflow of a double, so
    the hash is never an infinity and the result never [NaN]. *)
Theorem getHashPercent_accumulator_finite (seed : jsstring) :
  well_formed seed ->
  Z.abs (getHashPercent_loop 0 seed) <= 2 ^ 90.
Proof. intros Hwf. apply getHashPercent_loop_finite; [exact Hwf | lia]. Qed.

Lemma getHashPercent_accumulator_finite_witness :
  Z.abs (getHashPercent_loop 0 (js "0123456789")) <= 2 ^ 90.
Proof.
  apply getHashPercent_accumulator_finite. repeat constructor.
Defined.

(** X20: as long as the seed, read as a base-9 numeral of its code units,
    stays below [2^28], nothing wraps: the accumulator is the negated
    numeral and the hash percent is the numeral modulo 100. *)
Theorem getHashPercent_base9 (seed : jsstring) :
  base9_value seed < 2 ^ 28 ->
  getHashPercent_loop 0 seed = - base9_value seed
  /\ getHashPercent seed = base9_value seed mod 100.
Proof.
  intros Hb. unfold getHashPercent, base9_value in *.
  pose proof (base9_value_from_mono seed 0 ltac:(lia)) as Hpos.
  pose proof (loop_base9 seed 0 ltac:(lia) Hb) as Hloop.
  change (- 0) with 0 in Hloop. rewrite Hloop. split; [reflexivity|].
  rewrite Z.rem_opp_l by lia. rewrite Z.abs_opp.
  rewrite Z.rem_mod_nonneg by lia.
  apply Z.abs_eq. apply Z.mod_pos_bound. lia.
Qed.

Lemma getHashPercent_base9_witness :
  getHashPercent (js "abc") = base9_value (js "abc") mod 100.
Proof.
  apply (proj2 (getHashPercent_base9 (js "abc") eq_refl)).
Defined.

(** ** Further properties of the promise chain *)

Section ChainProperties.
Context {platform : Platform}.

Lemma storeConfig_keeps_settings
    (config : option RemoteConfigResponse) (w : World) :
  settings (storeConfig config w).2 = settings w.
Proof.
  unfold storeConfig. run. unfold setItem.
  destruct config, (localStorage w) eqn:Hls; try reflexivity.
  cbn. rewrite Hls. repeat (case_match; simplify_eq; cbn); reflexivity.
Qed.

Lemma getConfig_hit (iid : jsstring) (w : World) (c : RemoteConfigResponse) :
  (getStoredConfig w).1 = Fulfilled (Some c) ->
  getConfig iid w = (Fulfilled tt, (processConfig iid (Some c) w).2).
Proof.
  intros Hhit. destruct (getStoredConfig_reads w) as [r Hr].
  rewrite Hr in Hhit. cbn in Hhit. injection Hhit as ->.
  unfold getConfig. run. now rewrite Hr, processConfig_run.
Qed.

Lemma getConfig_miss (iid : jsstring) (w wa : World)
    (r : option RemoteConfigResponse) :
  (getStoredConfig w).1 = Fulfilled None ->
  getRemoteConfig iid w = (Fulfilled r, wa) ->
  getConfig iid w = storeConfig r (processConfig iid r wa).2.
Proof.
  intros Hmiss Hr. destruct (getStoredConfig_reads w) as [r0 Hr0].
  rewrite Hr0 in Hmiss. cbn in Hmiss. injection Hmiss as ->.
  destruct (processConfig_returns iid r wa) as (wb & Hp & _).
  unfold getConfig. run. now rewrite Hr0, Hr, Hp.
Qed.

(** X14: [getRemoteConfig] never rejects and touches neither the settings
    nor the storage.  It resolves to absent exactly when it has logged the
    one message that the config could not be fetched; a response it
    resolves to is the parsed body of an ok answer to a request that
    carries the installation id and the auth token. *)
Theorem getRemoteConfig_outcomes (iid : jsstring) (w : World) :
  exists r w',
    getRemoteConfig iid w = (Fulfilled r, w')
    /\ same_state w w'
    /\ (r = None -> console w' = console w ++ [COULD_NOT_GET_CONFIG_MSG])
    /\ (forall c,
          r = Some c ->
          console w' = console w
          /\ exists token request response,
              authToken (network w) = Fulfilled token
              /\ fetchResult (network w) request = Fulfilled response
              /\ ok response = true
              /\ json response = Fulfilled c
              /\ app_instance_id request = iid
              /\ app_instance_id_token request = token
              /\ authorization request
                 = FIS_AUTH_PREFIX ++ js " " ++ token).
Proof.
  unfold getRemoteConfig, same_state. run.
  repeat case_match; simplify_eq; eexists _, _;
    (split; [reflexivity|]); (split; [cbn; auto|]);
    (split; [try discriminate; reflexivity|]);
    intros c' Hc'; simplify_eq.
  split; [reflexivity|].
  eexists _, _, _. repeat split; eauto.
Qed.

(** X15: on a cache hit [getConfig] resolves after applying the cached
    response and nothing else: no request goes out whatever the network
    would answer, nothing is logged and the storage is not written. *)
Theorem getConfig_cache_hit (iid : jsstring) (w : World)
    (c : RemoteConfigResponse) :
  (getStoredConfig w).1 = Fulfilled (Some c) ->
  getConfig iid w = (Fulfilled tt, (processConfig iid (Some c) w).2)
  /\ localStorage (getConfig iid w).2 = localStorage w
  /\ now (getConfig iid w).2 = now w
  /\ console (getConfig iid w).2 = console w.
Proof.
  intros Hhit. rewrite (getConfig_hit iid w c Hhit).
  split; [reflexivity|]. now rewrite processConfig_run.
Qed.

(** X16: on a cache miss the fetched response is applied before it is
    stored, so the settings are those of the response whether or not the
    storage takes it. *)
Theorem getConfig_applies_before_store (iid : jsstring) (w : World)
    (c : RemoteConfigResponse) :
  (getStoredConfig w).1 = Fulfilled None ->
  (getRemoteConfig iid w).1 = Fulfilled (Some c) ->
  settings (getConfig iid w).2
  = applied_settings iid c (random w (draws w)) (random w (S (draws w)))
      (settings w).
Proof.
  intros Hmiss Hremote.
  destruct (getRemoteConfig_resolves iid w)
    as (r & wa & Hr & Hs & _ & Hrnd & Hd & _).
  rewrite Hr in Hremote. cbn in Hremote. injection Hremote as ->.
  rewrite (getConfig_miss iid w wa (Some c) Hmiss Hr).
  rewrite storeConfig_keeps_settings, processConfig_run.
  cbn [snd settings set_draws set_settings]. now rewrite Hs, Hrnd, Hd.
Qed.

(** X17: the promise of [getConfig] is rejected only on a cache miss, after
    the remote has answered with a response, by a storage that refuses a
    write. *)
Theorem getConfig_rejects_only_on_store (iid : jsstring) (w : World)
    (err : Error) :
  (getConfig iid w).1 = Rejected err ->
  (getStoredConfig w).1 = Fulfilled None
  /\ (exists c, (getRemoteConfig iid w).1 = Fulfilled (Some c))
  /\ ~ storage_writable w.
Proof.
  intros Hrej.
  destruct (getStoredConfig_reads w) as [[c0|] Hr0].
  { rewrite (getConfig_hit iid w c0) in Hrej by now rewrite Hr0.
    discriminate. }
  assert (Hmiss : (getStoredConfig w).1 = Fulfilled None) by now rewrite Hr0.
  destruct (getRemoteConfig_resolves iid w) as (r & wa & Hr & _ & Hls & _).
  rewrite (getConfig_miss iid w wa r Hmiss Hr) in Hrej.
  destruct (processConfig_returns iid r wa) as (wb & Hp & Hlsb & _).
  rewrite Hp in Hrej. cbn [snd] in Hrej.
  split; [exact Hmiss|]. split.
  - destruct r as [c|]; [exists c; now rewrite Hr|].
    cbn in Hrej. discriminate.
  - intros Hw.
    assert (Hwb : storage_writable wb).
    { unfold storage_writable in *. rewrite Hlsb, Hls. exact Hw. }
    rewrite (storeConfig_resolves r wb Hwb) in Hrej. discriminate.
Qed.

(** X18: after [getConfig] has fetched and stored a response, a later
    [getConfig] before the expiry is served from the cache: whatever the
    network would answer, it applies the stored response and resolves. *)
Theorem getConfig_second_call_from_cache
    (iid iid' : jsstring) (w : World) (c : RemoteConfigResponse) :
  let w1 := (getConfig iid w).2 in
  (getStoredConfig w).1 = Fulfilled None ->
  (getRemoteConfig iid w).1 = Fulfilled (Some c) ->
  (exists ls, localStorage w = Some ls) ->
  storage_writable w ->
  CONFIG_LOCAL_STORAGE_KEY <> CONFIG_EXPIRY_LOCAL_STORAGE_KEY ->
  JSON_stringify c <> [] ->
  JSON_parse (JSON_stringify c) = Fulfilled c ->
  ToString (ofZ (stored_expiry w1)) <> [] ->
  ToNumber (ToString (ofZ (stored_expiry w1))) = ofZ (stored_expiry w1) ->
  forall w2,
    localStorage w2 = localStorage w1 ->
    now w2 < stored_expiry w1 ->
    getConfig iid' w2 = (Fulfilled tt, (processConfig iid' (Some c) w2).2).
Proof.
  intros w1 Hmiss Hremote [ls Hls] Hw Hkeys Hne Hjson Hsne Hnum w2 Hls2 Ht.
  destruct (getRemoteConfig_resolves iid w)
    as (r & wa & Hr & _ & Hlsa & _).
  rewrite Hr in Hremote. cbn in Hremote. injection Hremote as ->.
  destruct (processConfig_returns iid (Some c) wa)
    as (wb & Hp & Hlsb & _).
  assert (Hlsb' : localStorage wb = Some ls) by congruence.
  assert (Hw1 : getConfig iid w = storeConfig (Some c) wb).
  { rewrite (getConfig_miss iid w wa (Some c) Hmiss Hr). now rewrite Hp. }
  subst w1. rewrite Hw1 in *.
  rewrite (storeConfig_run c wb ls Hlsb' (Hw ls Hls)) in *.
  cbn [snd] in *.
  change (stored_expiry (set_localStorage _ wb)) with (stored_expiry wb) in *.
  cbn [localStorage set_localStorage] in Hls2.
  apply getConfig_hit.
  erewrite getStoredConfig_hit;
    [| exact Hls2 | | exact Hsne | | exact Hne | exact Hjson].
  - rewrite Hnum.
    now rewrite (proj2 (num_lt_ofZ (now w2) (stored_expiry wb)) Ht).
  - unfold getItem. cbn [items]. apply lookup_insert_eq.
  - unfold getItem. cbn [items].
    rewrite lookup_insert_ne by congruence. apply lookup_insert_eq.
Qed.

End ChainProperties.

(** ** The further properties on the sample platform *)

Lemma sample_keys_differ :
  CONFIG_LOCAL_STORAGE_KEY (Platform := Sample.platform)
  <> CONFIG_EXPIRY_LOCAL_STORAGE_KEY (Platform := Sample.platform).
Proof. vm_compute. discriminate. Qed.

Lemma getStoredConfig_hit_iff_witness :
  (getStoredConfig (platform := Sample.platform)
     (Sample.cached_world (js "1700043200000")
        (Sample.stringify Sample.response))).1
  = Fulfilled (Some Sample.response).
Proof.
  apply (proj2 (proj2 (getStoredConfig_hit_iff (platform := Sample.platform)
                         _ Sample.response))).
  exists (Sample.cache (js "1700043200000") (Sample.stringify Sample.response)),
    (js "1700043200000"), (Sample.stringify Sample.response).
  split; [reflexivity|]. split; [reflexivity|]. split; [discriminate|].
  split; [reflexivity|]. split; [reflexivity|].
  split; [vm_compute; discriminate | vm_compute; reflexivity].
Defined.

Lemma getStoredConfig_miss_on_garbage_witness :
  getStoredConfig (platform := Sample.platform)
    (Sample.cached_world (js "tomorrow") (Sample.stringify Sample.response))
  = (Fulfilled None,
     Sample.cached_world (js "tomorrow") (Sample.stringify Sample.response))
  /\ getStoredConfig (platform := Sample.platform)
       (Sample.cached_world (js "1700043200000") (js "{oops"))
     = (Fulfilled None, Sample.cached_world (js "1700043200000") (js "{oops")).
Proof.
  split.
  - destruct (proj2 (getStoredConfig_miss_on_garbage
                       (platform := Sample.platform)
                       (Sample.cached_world (js "tomorrow")
                          (Sample.stringify Sample.response)))
                (Sample.cache (js "tomorrow")
                   (Sample.stringify Sample.response)) eq_refl)
      as (_ & Hnan & _).
    apply (Hnan (js "tomorrow")); reflexivity.
  - destruct (proj2 (getStoredConfig_miss_on_garbage
                       (platform := Sample.platform)
                       (Sample.cached_world (js "1700043200000")
                          (js "{oops")))
                (Sample.cache (js "1700043200000") (js "{oops")) eq_refl)
      as (_ & _ & _ & Hjson).
    apply (Hjson (js "{oops") SyntaxError); reflexivity.
Defined.

Lemma storeConfig_noop_witness :
  storeConfig (platform := Sample.platform) None
    (Sample.world true Sample.answer)
  = (Fulfilled tt, Sample.world true Sample.answer).
Proof. apply storeConfig_noop. left. reflexivity. Defined.

Lemma storeConfig_frame_witness :
  exists ls',
    localStorage
      (storeConfig (platform := Sample.platform) (Some Sample.response)
         (Sample.cached_world (js "1") (js "{}"))).2
    = Some ls'
    /\ accepts ls' = accepts (Sample.cache (js "1") (js "{}"))
    /\ forall k,
        k <> CONFIG_LOCAL_STORAGE_KEY (Platform := Sample.platform) ->
        k <> CONFIG_EXPIRY_LOCAL_STORAGE_KEY (Platform := Sample.platform) ->
        getItem ls' k = getItem (Sample.cache (js "1") (js "{}")) k.
Proof.
  exact (proj2 (proj2 (proj2 (proj2 (proj2 (proj2
           (storeConfig_frame (platform := Sample.platform)
              (Some Sample.response)
              (Sample.cached_world (js "1") (js "{}"))))))))
           _ eq_refl).
Defined.

Lemma storeConfig_rejection_keeps_expiry_witness :
  exists ls',
    localStorage
      (storeConfig (platform := Sample.platform) (Some Sample.response)
         (Sample.world false Sample.answer)).2
    = Some ls'
    /\ getItem ls' (js "@firebase/performance/configexpire") = None.
Proof.
  assert (Hrej : (storeConfig (platform := Sample.platform)
                    (Some Sample.response)
                    (Sample.world false Sample.answer)).1
                 = Rejected QuotaExceededError) by (vm_compute; reflexivity).
  destruct (storeConfig_rejection_keeps_expiry (platform := Sample.platform)
              Sample.response (Sample.world false Sample.answer)
              {| items := ∅; accepts := fun _ _ => false |}
              QuotaExceededError eq_refl sample_keys_differ Hrej)
    as (ls' & Hls' & Hexp & _).
  exists ls'. split; [exact Hls' | exact Hexp].
Defined.

Lemma stored_config_expires_witness :
  let w := Sample.world true (Rejected RC_NOT_OK) in
  let w' :=
    set_now 1700043200000
      (storeConfig (platform := Sample.platform) (Some Sample.response) w).2 in
  getStoredConfig (platform := Sample.platform) w' = (Fulfilled None, w').
Proof.
  intros w w'.
  refine (stored_config_expires (platform := Sample.platform)
            Sample.response w _ 1700043200000
            eq_refl (fun _ _ => eq_refl) _ _ w' eq_refl eq_refl).
  - vm_compute. reflexivity.
  - vm_compute. discriminate.
Defined.

Lemma storeConfig_overwrites_witness :
  storeConfig (platform := Sample.platform) (Some Sample.empty_response)
    (storeConfig (platform := Sample.platform) (Some Sample.response)
       (Sample.world true Sample.answer)).2
  = storeConfig (platform := Sample.platform) (Some Sample.empty_response)
      (Sample.world true Sample.answer).
Proof.
  apply storeConfig_overwrites; [|exact sample_keys_differ].
  intros ls Hls k v. injection Hls as <-. reflexivity.
Defined.

Lemma processConfig_iid_only_for_rollout_witness :
  processConfig (platform := Sample.platform) (js "abc")
    (Some Sample.empty_response) (Sample.world true Sample.answer)
  = processConfig (platform := Sample.platform) (js "xyz")
      (Some Sample.empty_response) (Sample.world true Sample.answer).
Proof.
  apply processConfig_iid_only_for_rollout. right. reflexivity.
Defined.

Lemma processConfig_sampling_flags_witness :
  logTraceAfterSampling
    (settings (processConfig (platform := Sample.platform) (js "abc")
                 (Some Sample.response) (Sample.world true Sample.answer)).2)
  = true.
Proof.
  apply (proj1 (proj2 (proj2 (processConfig_sampling_flags
                                (platform := Sample.platform) (js "abc")
                                Sample.response
                                (Sample.world true Sample.answer)))));
    reflexivity.
Defined.

Lemma processConfig_rollout_edge_witness :
  shouldSendToTransport
    (settings (processConfig (platform := Sample.platform) []
                 (Some Sample.response) (Sample.world true Sample.answer)).2)
  = false.
Proof.
  apply (processConfig_rollout_edge (platform := Sample.platform)
           [] (js "50") Sample.response _ sample_response_has_template
           eq_refl).
  left. reflexivity.
Defined.

Lemma getRemoteConfig_outcomes_witness :
  console
    (getRemoteConfig (platform := Sample.platform) (js "abc")
       (Sample.world true (Rejected RC_NOT_OK))).2
  = [COULD_NOT_GET_CONFIG_MSG].
Proof.
  destruct (getRemoteConfig_outcomes (platform := Sample.platform) (js "abc")
              (Sample.world true (Rejected RC_NOT_OK)))
    as (r & w' & Hrun & _ & Hnone & _).
  rewrite Hrun. cbn [snd]. apply Hnone.
  assert (Hr : (getRemoteConfig (platform := Sample.platform) (js "abc")
                  (Sample.world true (Rejected RC_NOT_OK))).1
               = Fulfilled None) by (vm_compute; reflexivity).
  rewrite Hrun in Hr. cbn in Hr. now injection Hr.
Defined.

Lemma getConfig_cache_hit_witness :
  let w :=
    Sample.cached_world (js "1700043200000")
      (Sample.stringify Sample.response) in
  localStorage (getConfig (platform := Sample.platform) (js "abc") w).2
  = localStorage w
  /\ console (getConfig (platform := Sample.platform) (js "abc") w).2 = [].
Proof.
  intros w.
  destruct (getConfig_cache_hit (platform := Sample.platform) (js "abc") w
              Sample.response)
    as (_ & Hls & _ & Hcon).
  - vm_compute. reflexivity.
  - split; [exact Hls | exact Hcon].
Defined.

Lemma getConfig_applies_before_store_witness :
  let w := Sample.world false Sample.answer in
  settings (getConfig (platform := Sample.platform) (js "abc") w).2
  = applied_settings (platform := Sample.platform) (js "abc") Sample.response
      (Fin (1 # 2)) (Fin (1 # 2)) Sample.defaults.
Proof.
  intros w.
  apply (getConfig_applies_before_store (platform := Sample.platform)
           (js "abc") w Sample.response); vm_compute; reflexivity.
Defined.

Lemma getConfig_rejects_only_on_store_witness :
  let w := Sample.world false Sample.answer in
  (getStoredConfig (platform := Sample.platform) w).1 = Fulfilled None
  /\ (exists c,
        (getRemoteConfig (platform := Sample.platform) (js "abc") w).1
        = Fulfilled (Some c))
  /\ ~ storage_writable w.
Proof.
  intros w.
  apply (getConfig_rejects_only_on_store (platform := Sample.platform)
           (js "abc") w QuotaExceededError).
  vm_compute. reflexivity.
Defined.

Lemma getConfig_second_call_from_cache_witness :
  let w := Sample.world true Sample.answer in
  let w1 := (getConfig (platform := Sample.platform) (js "abc") w).2 in
  let w2 :=
    set_now 1700043200249
      (Sample.cached_world (js "1700043200250")
         (Sample.stringify Sample.response)) in
  getConfig (platform := Sample.platform) (js "xyz") w2
  = (Fulfilled tt,
     (processConfig (platform := Sample.platform) (js "xyz")
        (Some Sample.response) w2).2).
Proof.
  intros w w1 w2.
  refine (getConfig_second_call_from_cache (platform := Sample.platform)
            (js "abc") (js "xyz") w Sample.response
            _ _ (ex_intro _ _ eq_refl) _ sample_keys_differ _ _ _ _
            w2 _ _).
  - vm_compute. reflexivity.
  - vm_compute. reflexivity.
  - intros ls Hls k v. injection Hls as <-. reflexivity.
  - vm_compute. discriminate.
  - vm_compute. reflexivity.
  - vm_compute. discriminate.
  - vm_compute. reflexivity.
  - vm_compute. reflexivity.
  - vm_compute. reflexivity.
Defined.
